(** * MeanReversionSpyRsiKr: the bracket order lifecycle of the strategy

    Shallow embedding of [Algorithm.Python/MeanReversionSpyRsiKr.py].

    The algorithm object carries three tracking fields ([entry_price] and the
    two order tickets).  Everything else the handlers read belongs to the
    hosting engine: the portfolio, the transaction manager, the indicators,
    the answers of the order gateway.  A handler is therefore a computation
    in a small state-and-output monad over the tracking fields, parameterised
    by a read-only snapshot [Host] of the engine taken when the handler is
    entered; what the handler asks of the engine (orders, cancellations,
    liquidation, log lines) is recorded, in program order, as a list of
    [Action]s.

    Prices are exact rationals ([Q]); quantities and order ids are integers
    ([Z]).  Log lines keep the constant part of their text only. *)

From Stdlib Require Import ZArith QArith Bool List String Lia Lqa.
Import ListNotations.

Local Open Scope Z_scope.

(** ** Engine data, as the handlers see it *)

Inductive OrderStatus :=
| New | Submitted | PartiallyFilled | Filled | Canceled | NoStatus
| Invalid | CancelPending | UpdateSubmitted | Error.

Inductive OrderType :=
| Market | Limit | StopMarket | StopLimit | MarketOnOpen | MarketOnClose.

Inductive OrderDirection := Buy | Sell | Hold.

Definition OrderStatus_eqb (x y : OrderStatus) : bool :=
  match x, y with
  | New, New | Submitted, Submitted | PartiallyFilled, PartiallyFilled
  | Filled, Filled | Canceled, Canceled | NoStatus, NoStatus
  | Invalid, Invalid | CancelPending, CancelPending
  | UpdateSubmitted, UpdateSubmitted | Error, Error => true
  | _, _ => false
  end.

Definition OrderType_eqb (x y : OrderType) : bool :=
  match x, y with
  | Market, Market | Limit, Limit | StopMarket, StopMarket
  | StopLimit, StopLimit | MarketOnOpen, MarketOnOpen
  | MarketOnClose, MarketOnClose => true
  | _, _ => false
  end.

Definition OrderDirection_eqb (x y : OrderDirection) : bool :=
  match x, y with
  | Buy, Buy | Sell, Sell | Hold, Hold => true
  | _, _ => false
  end.

(** An order of the transaction manager ([self.Transactions.GetOrderById]). *)
Record Order := {
  Symbol : string;
  Type_ : OrderType;
  Direction : OrderDirection
}.

(** The handle a submission returns.  Its status lives in the engine. *)
Record OrderTicket := { TicketOrderId : Z }.

Record OrderEvent := {
  OrderId : Z;
  Status : OrderStatus;
  FillPrice : Q;
  FillQuantity : Z
}.

(** The engine's [orderEvent.AbsoluteFillQuantity]: the magnitude of the
    signed fill quantity. *)
Definition AbsoluteFillQuantity (e : OrderEvent) : Z := Z.abs (FillQuantity e).

Record TradeBar := { Close : Q }.

(** The engine as one handler invocation reads it.  [GetOrderById] is total:
    an order event always refers to an order the transaction manager holds.
    [StopMarketOrder] and [LimitOrder] give the gateway's answer to a
    submission for "SPY": a ticket, or [None] when no ticket is created. *)
Record Host := {
  IsWarmingUp : bool;
  Quantity : Z;                          (* self.Portfolio["SPY"].Quantity *)
  GetOrderById : Z -> Order;
  rsi_IsReady : bool;  rsi_Value : Q;
  atr_IsReady : bool;  atr_Value : Q;
  kr_IsReady : bool;   kr_Value : Q;
  CalculateOrderQuantity : Q -> Z;       (* for "SPY", by target share *)
  StopMarketOrder : Z -> Q -> option OrderTicket;
  LimitOrder : Z -> Q -> option OrderTicket;
  IsActive : OrderTicket -> bool        (* ticket.Status.IsActive() *)
}.

Definition Invested (h : Host) : bool := negb (Quantity h =? 0).
Definition IsLong (h : Host) : bool := 0 <? Quantity h.
Definition IsShort (h : Host) : bool := Quantity h <? 0.

(** ** What a handler asks of the engine *)

Inductive Action :=
| AMarketOrder (quantity : Z)
| AStopMarketOrder (quantity : Z) (stopPrice : Q) (tag : string)
| ALimitOrder (quantity : Z) (limitPrice : Q) (tag : string)
| ACancel (ticket : OrderTicket) (reason : string)
| ALiquidate (tag : string)
| ALog (message : string).

Definition is_request (x : Action) : bool :=
  match x with ALog _ => false | _ => true end.

(** The gateway requests among the actions: everything but the log lines. *)
Definition requests (l : list Action) : list Action := filter is_request l.

Definition is_bracket_submission (x : Action) : bool :=
  match x with
  | AStopMarketOrder _ _ _ | ALimitOrder _ _ _ => true
  | _ => false
  end.

Definition is_entry_submission (x : Action) : bool :=
  match x with AMarketOrder _ => true | _ => false end.

Definition is_cancel_of (t : OrderTicket) (x : Action) : bool :=
  match x with
  | ACancel t' _ => TicketOrderId t' =? TicketOrderId t
  | _ => false
  end.

(** ** The algorithm object *)

Record Algo := {
  entry_price : Q;
  stop_loss_order_ticket : option OrderTicket;
  profit_target_order_ticket : option OrderTicket
}.

(** Strategy parameters fixed by [Initialize] and never assigned again. *)
Definition spy_Symbol : string := "SPY".
Definition rsi_oversold : Q := 30 # 1.
Definition rsi_overbought : Q := 70 # 1.
Definition rsi_exit_level : Q := 50 # 1.
Definition atr_stop_multiplier : Q := 3 # 2.
Definition atr_profit_multiplier : Q := 3 # 1.
Definition portfolio_allocation : Q := 19 # 20.

(** The tracking part of [Initialize]. *)
Definition Initialize : Algo :=
  {| entry_price := 0%Q;
     stop_loss_order_ticket := None;
     profit_target_order_ticket := None |}.

(** ** State-and-output monad of the handlers *)

Definition M (A : Type) : Type := Algo -> A * Algo * list Action.

Definition ret {A} (x : A) : M A := fun s => (x, s, []).

Definition bind {A B} (m : M A) (f : A -> M B) : M B :=
  fun s =>
    let '(x, s1, o1) := m s in
    let '(y, s2, o2) := f x s1 in
    (y, s2, o1 ++ o2).

Notation "x <- m ;; k" := (bind m (fun x => k))
  (at level 61, m at next level, right associativity).
Notation "m ;; k" := (bind m (fun _ => k))
  (at level 61, right associativity).

Definition self : M Algo := fun s => (s, s, []).
Definition emit (x : Action) : M unit := fun s => (tt, s, [x]).
Definition Log (message : string) : M unit := emit (ALog message).
Definition pass : M unit := ret tt.

Definition set_entry_price (p : Q) : M unit :=
  fun s => (tt, {| entry_price := p;
                  stop_loss_order_ticket := stop_loss_order_ticket s;
                  profit_target_order_ticket := profit_target_order_ticket s |}, []).

Definition set_stop_loss_order_ticket (t : option OrderTicket) : M unit :=
  fun s => (tt, {| entry_price := entry_price s;
                  stop_loss_order_ticket := t;
                  profit_target_order_ticket := profit_target_order_ticket s |}, []).

Definition set_profit_target_order_ticket (t : option OrderTicket) : M unit :=
  fun s => (tt, {| entry_price := entry_price s;
                  stop_loss_order_ticket := stop_loss_order_ticket s;
                  profit_target_order_ticket := t |}, []).

(** Final tracking state and emitted actions of a handler run. *)
Definition run (m : M unit) (s : Algo) : Algo * list Action :=
  let '(_, s', o) := m s in (s', o).

Definition is_None {A} (o : option A) : bool :=
  match o with None => true | Some _ => false end.

(** [t is not None and id == t.OrderId] *)
Definition ticket_matches (t : option OrderTicket) (id : Z) : bool :=
  match t with
  | Some k => id =? TicketOrderId k
  | None => false
  end.

Definition Qlt_bool (x y : Q) : bool := negb (Qle_bool y x).

(** ** The handlers *)

Definition ResetTradeTracking : M unit :=
  set_entry_price 0%Q ;;
  set_stop_loss_order_ticket None ;;
  set_profit_target_order_ticket None.

Definition CancelStopLossAndProfitTarget (h : Host) : M unit :=
  s <- self ;;
  match stop_loss_order_ticket s with
  | Some t =>
      if IsActive h t then
        emit (ACancel t "Position Closed Manually") ;;
        Log "Canceled Stop Loss order."
      else pass
  | None => pass
  end ;;
  s <- self ;;
  match profit_target_order_ticket s with
  | Some t =>
      if IsActive h t then
        emit (ACancel t "Position Closed Manually") ;;
        Log "Canceled Profit Target order."
      else pass
  | None => pass
  end ;;
  ResetTradeTracking.

(** The stop and target prices are the source's expressions over exact
    rationals; the rounding of the source's floating-point arithmetic is not
    modelled. *)
Definition PlaceStopLossAndProfitTarget (h : Host)
    (direction : OrderDirection) (quantity : Z) (entry : Q) (current_atr : Q)
  : M unit :=
  if Qle_bool current_atr 0 then
    Log "WARNING: ATR is zero or negative, cannot place SL/PT." ;;
    emit (ALiquidate "Invalid ATR for SL/PT")
  else
    Log "Placing SL/PT" ;;
    let close_quantity :=
      if OrderDirection_eqb direction Buy then - quantity else quantity in
    (if OrderDirection_eqb direction Buy then
       let stop_price := (entry - atr_stop_multiplier * current_atr)%Q in
       let target_price := (entry + atr_profit_multiplier * current_atr)%Q in
       emit (AStopMarketOrder close_quantity stop_price "ATR SL") ;;
       set_stop_loss_order_ticket (StopMarketOrder h close_quantity stop_price) ;;
       emit (ALimitOrder close_quantity target_price "ATR PT") ;;
       set_profit_target_order_ticket (LimitOrder h close_quantity target_price) ;;
       Log "Long SL placed"
     else if OrderDirection_eqb direction Sell then
       let stop_price := (entry + atr_stop_multiplier * current_atr)%Q in
       let target_price := (entry - atr_profit_multiplier * current_atr)%Q in
       emit (AStopMarketOrder close_quantity stop_price "ATR SL") ;;
       set_stop_loss_order_ticket (StopMarketOrder h close_quantity stop_price) ;;
       emit (ALimitOrder close_quantity target_price "ATR PT") ;;
       set_profit_target_order_ticket (LimitOrder h close_quantity target_price) ;;
       Log "Short SL placed"
     else pass) ;;
    s <- self ;;
    if is_None (stop_loss_order_ticket s) || is_None (profit_target_order_ticket s)
    then
      Log "ERROR: Failed to create SL or PT order tickets. Liquidating position." ;;
      emit (ALiquidate "SL/PT Creation Failed") ;;
      ResetTradeTracking
    else pass.

Definition OnOrderEvent (h : Host) (orderEvent : OrderEvent) : M unit :=
  let order := GetOrderById h (OrderId orderEvent) in
  s <- self ;;
  if OrderStatus_eqb (Status orderEvent) Filled then
    if String.eqb (Symbol order) spy_Symbol
       && OrderType_eqb (Type_ order) Market
       && is_None (stop_loss_order_ticket s)
       && is_None (profit_target_order_ticket s)
    then
      if (OrderDirection_eqb (Direction order) Buy && IsLong h)
         || (OrderDirection_eqb (Direction order) Sell && IsShort h)
      then
        set_entry_price (FillPrice orderEvent) ;;
        let fill_quantity := AbsoluteFillQuantity orderEvent in
        Log "ENTRY FILL" ;;
        if atr_IsReady h then
          let current_atr := atr_Value h in
          s1 <- self ;;
          PlaceStopLossAndProfitTarget h (Direction order) fill_quantity
            (entry_price s1) current_atr
        else
          Log "WARNING: ATR not ready at time of fill. Cannot place SL/PT." ;;
          emit (ALiquidate "ATR Not Ready on Fill")
      else pass
    else if ticket_matches (stop_loss_order_ticket s) (OrderId orderEvent) then
      Log "STOP LOSS FILLED" ;;
      match profit_target_order_ticket s with
      | Some t => emit (ACancel t "Stop Loss Hit")
      | None => pass
      end ;;
      ResetTradeTracking
    else if ticket_matches (profit_target_order_ticket s) (OrderId orderEvent) then
      Log "PROFIT TARGET FILLED" ;;
      match stop_loss_order_ticket s with
      | Some t => emit (ACancel t "Profit Target Hit")
      | None => pass
      end ;;
      ResetTradeTracking
    else pass
  else if OrderStatus_eqb (Status orderEvent) Canceled then
    (if ticket_matches (stop_loss_order_ticket s) (OrderId orderEvent) then
       Log "Stop Loss Order Canceled" ;;
       set_stop_loss_order_ticket None
     else pass) ;;
    s1 <- self ;;
    (if ticket_matches (profit_target_order_ticket s1) (OrderId orderEvent) then
       Log "Profit Target Order Canceled" ;;
       set_profit_target_order_ticket None
     else pass) ;;
    if negb (Invested h) then ResetTradeTracking else pass
  else if OrderStatus_eqb (Status orderEvent) Invalid
          || OrderStatus_eqb (Status orderEvent) CancelPending
          || OrderStatus_eqb (Status orderEvent) Error then
    Log "ORDER EVENT" ;;
    if OrderType_eqb (Type_ order) Market && negb (Invested h)
    then ResetTradeTracking else pass
  else pass.

(** [data] is [None] when the slice has no "SPY" bar. *)
Definition OnData (h : Host) (data : option TradeBar) : M unit :=
  if IsWarmingUp h then pass else
  match data with
  | None => pass
  | Some bar =>
    if negb (rsi_IsReady h) || negb (atr_IsReady h) || negb (kr_IsReady h)
    then pass else
    let current_rsi := rsi_Value h in
    let current_kr := kr_Value h in
    let current_price := Close bar in
    if negb (Invested h) then
      if Qlt_bool current_rsi rsi_oversold && Qlt_bool current_price current_kr
      then
        Log "ENTRY SIGNAL: Long." ;;
        let quantity := CalculateOrderQuantity h portfolio_allocation in
        if negb (quantity =? 0) then emit (AMarketOrder quantity) else pass
      else if Qlt_bool rsi_overbought current_rsi
              && Qlt_bool current_kr current_price
      then
        Log "ENTRY SIGNAL: Short." ;;
        let quantity := CalculateOrderQuantity h (- portfolio_allocation)%Q in
        if negb (quantity =? 0) then emit (AMarketOrder quantity) else pass
      else pass
    else
      if IsLong h && Qlt_bool rsi_exit_level current_rsi then
        Log "EXIT SIGNAL: RSI Exit Long." ;;
        emit (ALiquidate "RSI Exit") ;;
        CancelStopLossAndProfitTarget h
      else if IsShort h && Qlt_bool current_rsi rsi_exit_level then
        Log "EXIT SIGNAL: RSI Exit Short." ;;
        emit (ALiquidate "RSI Exit") ;;
        CancelStopLossAndProfitTarget h
      else pass
  end.

(** ** Derived controller states

    The source keeps no state variable: the controller state is read off the
    portfolio position and the two ticket references. *)

Definition bracket_absent (s : Algo) : bool :=
  is_None (stop_loss_order_ticket s) && is_None (profit_target_order_ticket s).

Definition bracket_present (s : Algo) : bool :=
  negb (is_None (stop_loss_order_ticket s))
  && negb (is_None (profit_target_order_ticket s)).

(** Modelled from the spec: the state table of the data model (FLAT,
    OPEN_UNBRACKETED, OPEN_BRACKETED), which the source has no function for.
    [position] is the signed holding of the instrument. *)
Definition FLAT (position : Z) (s : Algo) : bool :=
  (position =? 0) && bracket_absent s.

Definition OPEN_UNBRACKETED (position : Z) (s : Algo) : bool :=
  negb (position =? 0) && bracket_absent s.

Definition OPEN_BRACKETED (position : Z) (s : Algo) : bool :=
  negb (position =? 0) && bracket_present s.

(** Modelled from the spec: the engine's side of [liquidate(reason)], which
    closes the whole position; no other request moves the holding before its
    own fill is reported. *)
Fixpoint position_after (out : list Action) (position : Z) : Z :=
  match out with
  | [] => position
  | ALiquidate _ :: rest => position_after rest 0
  | _ :: rest => position_after rest position
  end.


(** The spec's bracket price policy, written from its words, to be compared
    with what [PlaceStopLossAndProfitTarget] submits. *)
Definition spec_stop_price (d : OrderDirection) (E A : Q) : Q :=
  match d with
  | Buy => (E - (3 # 2) * A)%Q
  | Sell => (E + (3 # 2) * A)%Q
  | Hold => E
  end.

Definition spec_target_price (d : OrderDirection) (E A : Q) : Q :=
  match d with
  | Buy => (E + (3 # 1) * A)%Q
  | Sell => (E - (3 # 1) * A)%Q
  | Hold => E
  end.

(** Filled quantity with the sign inverted relative to the entry. *)
Definition spec_close_quantity (d : OrderDirection) (filled : Z) : Z :=
  match d with
  | Buy => - Z.abs filled
  | _ => Z.abs filled
  end.

(** The position the portfolio shows agrees with the direction of the order:
    the test of lines 156-157. *)
Definition position_matches (h : Host) (d : OrderDirection) : Prop :=
  (d = Buy /\ 0 < Quantity h) \/ (d = Sell /\ Quantity h < 0).

(** ** Concrete engine snapshots used in examples *)

Definition spy_order (t : OrderType) (d : OrderDirection) : Order :=
  {| Symbol := "SPY"; Type_ := t; Direction := d |}.

(** Order 1 is a market buy, 2 a market sell (a liquidation of a long), 7 a
    protective stop, 8 a protective limit. *)
Definition sample_orders (id : Z) : Order :=
  match id with
  | 1 => spy_order Market Buy
  | 2 => spy_order Market Sell
  | 7 => spy_order StopMarket Sell
  | 8 => spy_order Limit Sell
  | _ => spy_order Market Hold
  end.

Definition accept_as (id : Z) (q : Z) (p : Q) : option OrderTicket :=
  Some {| TicketOrderId := id |}.

Definition reject (q : Z) (p : Q) : option OrderTicket := None.

(** Long 10 shares, every indicator ready, ATR = 2, both bracket
    submissions accepted as orders 7 and 8. *)
Definition host_long : Host :=
  {| IsWarmingUp := false;
     Quantity := 10;
     GetOrderById := sample_orders;
     rsi_IsReady := true; rsi_Value := 25 # 1;
     atr_IsReady := true; atr_Value := 2 # 1;
     kr_IsReady := true;  kr_Value := 410 # 1;
     CalculateOrderQuantity := fun target => if Qle_bool 0 target then 10 else -10;
     StopMarketOrder := accept_as 7;
     LimitOrder := accept_as 8;
     IsActive := fun _ => true |}.

Definition with_position (q : Z) (h : Host) : Host :=
  {| IsWarmingUp := IsWarmingUp h;
     Quantity := q;
     GetOrderById := GetOrderById h;
     rsi_IsReady := rsi_IsReady h; rsi_Value := rsi_Value h;
     atr_IsReady := atr_IsReady h; atr_Value := atr_Value h;
     kr_IsReady := kr_IsReady h;  kr_Value := kr_Value h;
     CalculateOrderQuantity := CalculateOrderQuantity h;
     StopMarketOrder := StopMarketOrder h;
     LimitOrder := LimitOrder h;
     IsActive := IsActive h |}.

Definition with_atr (ready : bool) (v : Q) (h : Host) : Host :=
  {| IsWarmingUp := IsWarmingUp h;
     Quantity := Quantity h;
     GetOrderById := GetOrderById h;
     rsi_IsReady := rsi_IsReady h; rsi_Value := rsi_Value h;
     atr_IsReady := ready; atr_Value := v;
     kr_IsReady := kr_IsReady h;  kr_Value := kr_Value h;
     CalculateOrderQuantity := CalculateOrderQuantity h;
     StopMarketOrder := StopMarketOrder h;
     LimitOrder := LimitOrder h;
     IsActive := IsActive h |}.

Definition with_rsi (v : Q) (h : Host) : Host :=
  {| IsWarmingUp := IsWarmingUp h;
     Quantity := Quantity h;
     GetOrderById := GetOrderById h;
     rsi_IsReady := rsi_IsReady h; rsi_Value := v;
     atr_IsReady := atr_IsReady h; atr_Value := atr_Value h;
     kr_IsReady := kr_IsReady h;  kr_Value := kr_Value h;
     CalculateOrderQuantity := CalculateOrderQuantity h;
     StopMarketOrder := StopMarketOrder h;
     LimitOrder := LimitOrder h;
     IsActive := IsActive h |}.

Definition with_gateway (stop limit : Z -> Q -> option OrderTicket) (h : Host)
  : Host :=
  {| IsWarmingUp := IsWarmingUp h;
     Quantity := Quantity h;
     GetOrderById := GetOrderById h;
     rsi_IsReady := rsi_IsReady h; rsi_Value := rsi_Value h;
     atr_IsReady := atr_IsReady h; atr_Value := atr_Value h;
     kr_IsReady := kr_IsReady h;  kr_Value := kr_Value h;
     CalculateOrderQuantity := CalculateOrderQuantity h;
     StopMarketOrder := stop;
     LimitOrder := limit;
     IsActive := IsActive h |}.

Definition filled (id : Z) (price : Q) (q : Z) : OrderEvent :=
  {| OrderId := id; Status := Filled; FillPrice := price; FillQuantity := q |}.

Definition bracketed (E : Q) (stop target : Z) : Algo :=
  {| entry_price := E;
     stop_loss_order_ticket := Some {| TicketOrderId := stop |};
     profit_target_order_ticket := Some {| TicketOrderId := target |} |}.

(** The test of lines 156-157, as the handler evaluates it. *)
Definition direction_matches (h : Host) (d : OrderDirection) : bool :=
  (OrderDirection_eqb d Buy && IsLong h)
  || (OrderDirection_eqb d Sell && IsShort h).

(** The guards under which [OnOrderEvent] treats an event as the fill of an
    entry (lines 148-157). *)
Definition entry_fill_accepted (h : Host) (ev : OrderEvent) (s : Algo) : bool :=
  OrderStatus_eqb (Status ev) Filled
  && String.eqb (Symbol (GetOrderById h (OrderId ev))) spy_Symbol
  && OrderType_eqb (Type_ (GetOrderById h (OrderId ev))) Market
  && bracket_absent s
  && direction_matches h (Direction (GetOrderById h (OrderId ev))).

(** An accepted entry fill that ends without a tracked bracket: the ATR was
    not usable or a bracket submission was refused. *)
Definition entry_fill_failed (h : Host) (ev : OrderEvent) (s : Algo) : bool :=
  entry_fill_accepted h ev s
  && bracket_absent (fst (run (OnOrderEvent h ev) s)).

(** The entry conditions of [OnData] (lines 105 and 114) and its exit
    conditions (lines 125 and 129). *)
Definition long_signal (h : Host) (bar : TradeBar) : bool :=
  Qlt_bool (rsi_Value h) rsi_oversold && Qlt_bool (Close bar) (kr_Value h).

Definition short_signal (h : Host) (bar : TradeBar) : bool :=
  Qlt_bool rsi_overbought (rsi_Value h) && Qlt_bool (kr_Value h) (Close bar).

Definition exit_signal (h : Host) : bool :=
  (IsLong h && Qlt_bool rsi_exit_level (rsi_Value h))
  || (IsShort h && Qlt_bool (rsi_Value h) rsi_exit_level).

(** The tick is evaluated: past warm-up, with every indicator ready. *)
Definition tick_evaluated (h : Host) : bool :=
  negb (IsWarmingUp h) && rsi_IsReady h && atr_IsReady h && kr_IsReady h.

(** Every ticket the algorithm tracks refers to an order that is not a
    market order: tickets only come from [StopMarketOrder] and
    [LimitOrder]. *)
Definition tracked_are_brackets (h : Host) (s : Algo) : Prop :=
  forall t,
    stop_loss_order_ticket s = Some t \/ profit_target_order_ticket s = Some t ->
    Type_ (GetOrderById h (TicketOrderId t)) <> Market.

(** The gateway numbers a new order differently from the order [id]. *)
Definition gateway_fresh (h : Host) (id : Z) : Prop :=
  forall q p t,
    StopMarketOrder h q p = Some t \/ LimitOrder h q p = Some t ->
    TicketOrderId t <> id.

(** Delivering [ev] a second time, against the same engine snapshot, changes
    no tracking field and asks nothing more of the gateway. *)
Definition second_delivery_is_noop (h : Host) (ev : OrderEvent) (s : Algo)
  : Prop :=
  let s1 := fst (run (OnOrderEvent h ev) s) in
  fst (run (OnOrderEvent h ev) s1) = s1
  /\ requests (snd (run (OnOrderEvent h ev) s1)) = [].

(** Quantity carried by a bracket submission. *)
Definition submitted_quantity (x : Action) : option Z :=
  match x with
  | AStopMarketOrder q _ _ | ALimitOrder q _ _ | AMarketOrder q => Some q
  | _ => None
  end.

(** Flat portfolio, long entry condition met (RSI 25 < 30, close 400 below
    the regression value 410), sizing returns 10 shares. *)
Definition host_flat : Host := with_position 0 host_long.

Definition bar_400 : TradeBar := {| Close := 400 # 1 |}.

(** The tick changes no tracking field and asks nothing of the gateway. *)
Definition tick_is_ignored (h : Host) (data : option TradeBar) (s : Algo)
  : Prop :=
  fst (run (OnData h data) s) = s
  /\ requests (snd (run (OnData h data) s)) = [].

(** Long 10 shares after the entry fill; the gateway accepts the stop as
    order 7 and refuses the limit. *)
Definition host_stop_only : Host :=
  with_gateway (accept_as 7) reject host_long.

(** Long 10 shares after the entry fill, ATR not ready. *)
Definition host_no_atr : Host := with_atr false 0%Q host_long.

(** As [host_long], with a gateway that would number new orders 11 and 12. *)
Definition host_later : Host :=
  with_gateway (accept_as 11) (accept_as 12) host_long.

(** The algorithm holds a reference to ticket [t]. *)
Definition tracked (s : Algo) (t : OrderTicket) : Prop :=
  stop_loss_order_ticket s = Some t \/ profit_target_order_ticket s = Some t.

(** Both references set, or neither. *)
Definition bracket_whole (s : Algo) : bool :=
  bracket_present s || bracket_absent s.

(** The statuses [OnOrderEvent] has no branch for. *)
Definition unhandled_status (st : OrderStatus) : bool :=
  match st with
  | New | Submitted | PartiallyFilled | NoStatus | UpdateSubmitted => true
  | _ => false
  end.


Definition is_cancellation (x : Action) : bool :=
  match x with ACancel _ _ => true | _ => false end.

(** Short 10 shares, otherwise as [host_long]. *)
Definition host_short : Host := with_position (-10) host_long.

Definition order_event (id : Z) (st : OrderStatus) : OrderEvent :=
  {| OrderId := id; Status := st; FillPrice := 0%Q; FillQuantity := 0 |}.

(** The same state with another tracked entry price. *)
Definition with_entry_price (p : Q) (s : Algo) : Algo :=
  {| entry_price := p;
     stop_loss_order_ticket := stop_loss_order_ticket s;
     profit_target_order_ticket := profit_target_order_ticket s |}.

(** Two states agree on both ticket references. *)
Definition same_tickets (s1 s2 : Algo) : Prop :=
  stop_loss_order_ticket s1 = stop_loss_order_ticket s2
  /\ profit_target_order_ticket s1 = profit_target_order_ticket s2.

(** ** The kernel regression indicator

    Shallow embedding of [Indicators/KernelRegression.py], the custom
    indicator the strategy registers for the close price.  The two deques are
    lists with the oldest element first.  [np_exp] stands for numpy's
    exponential and is a parameter; sums, products and the quotient are exact
    rational operations. *)

Module KR.

(** The data point of the base indicator ([self.current]) and of an input. *)
Record IndicatorDataPoint := { point_time : Z; point_value : Q }.

Record State := {
  period : Z;
  bandwidth : Q;
  warm_up_period : Z;
  value : Q;
  _window : list Q;
  _indices : list Z;
  _current_index : Z;
  current : IndicatorDataPoint
}.

Inductive Result (A : Type) :=
| Ok (a : A)
| ValueError (message : string).
Arguments Ok {A} a.
Arguments ValueError {A} message.

(** [deque(maxlen=maxlen).append(x)]: a full deque drops its oldest element. *)
Definition deque_append {A} (maxlen : Z) (d : list A) (x : A) : list A :=
  if Z.of_nat (List.length d) <? maxlen then d ++ [x] else tl (d ++ [x]).

(** [__init__]; [current0] is the data point the base class starts with. *)
Definition init (current0 : IndicatorDataPoint) (period : Z) (bandwidth : Q)
  : Result State :=
  if period <? 1 then
    ValueError "KernelRegression: Period must be greater than 0."
  else if Qle_bool bandwidth 0 then
    ValueError "KernelRegression: Bandwidth must be positive."
  else
    Ok {| period := period;
          bandwidth := bandwidth;
          warm_up_period := period;
          value := 0%Q;
          _window := [];
          _indices := [];
          _current_index := 0;
          current := current0 |}.

Definition is_ready (st : State) : bool :=
  Z.of_nat (List.length (_window st)) =? period st.

(** The threshold [1e-10] of the division guard. *)
Definition threshold : Q := 1 # 10000000000.

Definition np_sum (l : list Q) : Q := fold_right Qplus 0%Q l.

(** Elementwise product of two arrays of the same length. *)
Definition np_mul (a b : list Q) : list Q :=
  map (fun p => (fst p * snd p)%Q) (combine a b).

Section Kernel.
Variable np_exp : Q -> Q.

(** [np.exp(-0.5 * ((indices - current_index) / bandwidth) ** 2)], for a
    bandwidth that is not zero (see [update] for zero). *)
Definition weights (bandwidth : Q) (indices : list Z) (current_index : Z)
  : list Q :=
  map (fun i =>
         np_exp (- (1 # 2) * (inject_Z (i - current_index) / bandwidth) ^ 2)%Q)
      indices.

(** [update]: the returned flag and the state afterwards.  [indices[-1]] and
    [window_array[-1]] are read on a full window, which is not empty for the
    periods [init] accepts.  With a zero bandwidth numpy's division gives
    0/0 = NaN at the newest index, the sum of the weights is NaN and its
    comparison with the threshold fails; rationals have no NaN, so the guard
    tests the bandwidth as well. *)
Definition update (input_data : IndicatorDataPoint) (st : State)
  : bool * State :=
  let window := deque_append (period st) (_window st) (point_value input_data) in
  let indices := deque_append (period st) (_indices st) (_current_index st) in
  let st1 :=
    {| period := period st;
       bandwidth := bandwidth st;
       warm_up_period := warm_up_period st;
       value := value st;
       _window := window;
       _indices := indices;
       _current_index := _current_index st + 1;
       current := current st |} in
  if negb (is_ready st1) then
    (false,
     {| period := period st1;
        bandwidth := bandwidth st1;
        warm_up_period := warm_up_period st1;
        value := value st1;
        _window := _window st1;
        _indices := _indices st1;
        _current_index := _current_index st1;
        current := {| point_time := point_time input_data;
                      point_value := point_value (current st1) |} |})
  else
    let current_index := last indices 0 in
    let w := weights (bandwidth st1) indices current_index in
    let sum_weights := np_sum w in
    let v :=
      if negb (Qeq_bool (bandwidth st1) 0) && Qlt_bool threshold sum_weights
      then (np_sum (np_mul w window) / sum_weights)%Q
      else last window 0%Q in
    (true,
     {| period := period st1;
        bandwidth := bandwidth st1;
        warm_up_period := warm_up_period st1;
        value := v;
        _window := window;
        _indices := indices;
        _current_index := _current_index st1;
        current := {| point_time := point_time input_data;
                      point_value := v |} |}).

(** The engine feeds the registered indicator one data point per bar. *)
Fixpoint feed (inputs : list IndicatorDataPoint) (st : State) : State :=
  match inputs with
  | [] => st
  | x :: rest => feed rest (snd (update x st))
  end.

End Kernel.

(** [reset]; [current0] is the data point the base class resets to. *)
Definition reset (current0 : IndicatorDataPoint) (st : State) : State :=
  {| period := period st;
     bandwidth := bandwidth st;
     warm_up_period := warm_up_period st;
     value := 0%Q;
     _window := [];
     _indices := [];
     _current_index := 0;
     current := current0 |}.

(** The last [n] elements of a list. *)
Definition last_n {A} (n : nat) (l : list A) : list A :=
  skipn (List.length l - n) l.

(** A rational stand-in for the exponential on non-positive arguments, used
    in examples: 1 at 0, positive and decreasing towards minus infinity. *)
Definition sample_kernel (x : Q) : Q := (1 / (1 - x))%Q.

Definition point (t : Z) (v : Q) : IndicatorDataPoint :=
  {| point_time := t; point_value := v |}.

Definition current0 : IndicatorDataPoint := point 0 0%Q.

(** A fresh indicator of period 3 and bandwidth 2. *)
Definition fresh3 : State :=
  {| period := 3; bandwidth := 2 # 1; warm_up_period := 3; value := 0%Q;
     _window := []; _indices := []; _current_index := 0;
     current := current0 |}.

Definition bars : list IndicatorDataPoint :=
  [point 1 (10 # 1); point 2 (20 # 1); point 3 (30 # 1); point 4 (40 # 1)].

End KR.

(** ** Proof infrastructure *)

(** Unfold the monad and run the straight-line part of a handler. *)
Ltac exec :=
  cbv beta iota zeta delta
      [run bind ret self emit Log pass
       set_entry_price set_stop_loss_order_ticket set_profit_target_order_ticket
       ResetTradeTracking is_None ticket_matches bracket_absent bracket_present
       entry_price stop_loss_order_ticket profit_target_order_ticket
       TicketOrderId app fst snd andb orb negb filter requests is_request
       is_bracket_submission is_entry_submission
       OrderStatus_eqb OrderType_eqb OrderDirection_eqb].

Lemma Qle_bool_false_of_pos (A : Q) : (0 < A)%Q -> Qle_bool A 0 = false.
Proof.
  intros HA. destruct (Qle_bool A 0) eqn:E; [|reflexivity].
  apply Qle_bool_iff in E. exfalso. apply (Qlt_not_le _ _ HA E).
Qed.

Lemma Qle_bool_true_of_nonpos (A : Q) : (A <= 0)%Q -> Qle_bool A 0 = true.
Proof. intros HA. now apply Qle_bool_iff. Qed.

Lemma run_bind_self (f : Algo -> M unit) (s : Algo) :
  run (s0 <- self ;; f s0) s = run (f s) s.
Proof.
  unfold run, bind, self. destruct (f s s) as [[u s'] o]. reflexivity.
Qed.

Lemma position_matches_test h d :
  position_matches h d ->
  (OrderDirection_eqb d Buy && IsLong h)
  || (OrderDirection_eqb d Sell && IsShort h) = true.
Proof.
  unfold IsLong, IsShort.
  intros [[-> H] | [-> H]]; cbn [OrderDirection_eqb andb orb].
  - apply Z.ltb_lt in H. now rewrite H.
  - apply Z.ltb_lt in H. now rewrite H.
Qed.

Lemma position_matches_dir h d :
  position_matches h d -> d = Buy \/ d = Sell.
Proof. intros [[-> _] | [-> _]]; auto. Qed.

Lemma position_matches_invested h d :
  position_matches h d -> (Quantity h =? 0) = false.
Proof. intros [[_ H] | [_ H]]; apply Z.eqb_neq; lia. Qed.

(** The entry-fill path of [OnOrderEvent] (lines 148-171), once its guards
    hold: the handler stores the fill price and goes on to the ATR test. *)
Lemma OnOrderEvent_entry_fill h ev s :
  Status ev = Filled ->
  Symbol (GetOrderById h (OrderId ev)) = spy_Symbol ->
  Type_ (GetOrderById h (OrderId ev)) = Market ->
  stop_loss_order_ticket s = None ->
  profit_target_order_ticket s = None ->
  position_matches h (Direction (GetOrderById h (OrderId ev))) ->
  run (OnOrderEvent h ev) s =
  run (Log "ENTRY FILL" ;;
       if atr_IsReady h then
         PlaceStopLossAndProfitTarget h (Direction (GetOrderById h (OrderId ev)))
           (AbsoluteFillQuantity ev) (FillPrice ev) (atr_Value h)
       else
         Log "WARNING: ATR not ready at time of fill. Cannot place SL/PT." ;;
         emit (ALiquidate "ATR Not Ready on Fill"))
      {| entry_price := FillPrice ev;
         stop_loss_order_ticket := None;
         profit_target_order_ticket := None |}.
Proof.
  intros Hst Hsym Hty Hs Ht Hpos.
  destruct s as [ep st tg]; cbn in Hs, Ht; subst st tg.
  unfold OnOrderEvent.
  rewrite Hst, Hsym, Hty, (position_matches_test _ _ Hpos), String.eqb_refl.
  exec. destruct (atr_IsReady h); exec.
  - destruct (PlaceStopLossAndProfitTarget h _ _ _ _ _) as [[u s'] o]. reflexivity.
  - reflexivity.
Qed.

(** What [PlaceStopLossAndProfitTarget] does for a positive ATR and a real
    entry direction, by gateway answer. *)
Lemma Place_positive_atr h d q E A s :
  (0 < A)%Q -> d = Buy \/ d = Sell ->
  stop_loss_order_ticket s = None ->
  profit_target_order_ticket s = None ->
  let cq := if OrderDirection_eqb d Buy then - q else q in
  let sp := spec_stop_price d E A in
  let tp := spec_target_price d E A in
  let submitted :=
    [ALog "Placing SL/PT"; AStopMarketOrder cq sp "ATR SL";
     ALimitOrder cq tp "ATR PT";
     ALog (if OrderDirection_eqb d Buy then "Long SL placed" else "Short SL placed")] in
  run (PlaceStopLossAndProfitTarget h d q E A) s =
  match StopMarketOrder h cq sp, LimitOrder h cq tp with
  | Some t1, Some t2 =>
      ({| entry_price := entry_price s;
          stop_loss_order_ticket := Some t1;
          profit_target_order_ticket := Some t2 |}, submitted)
  | _, _ =>
      (Initialize,
       submitted ++
       [ALog "ERROR: Failed to create SL or PT order tickets. Liquidating position.";
        ALiquidate "SL/PT Creation Failed"])
  end.
Proof.
  intros HA Hd Hs Ht. destruct s as [ep st tg]; cbn in Hs, Ht; subst st tg.
  unfold PlaceStopLossAndProfitTarget.
  rewrite (Qle_bool_false_of_pos _ HA).
  destruct Hd as [-> | ->]; exec;
    unfold spec_stop_price, spec_target_price, Initialize,
      atr_stop_multiplier, atr_profit_multiplier;
    destruct (StopMarketOrder h _ _); try reflexivity;
    destruct (LimitOrder h _ _); reflexivity.
Qed.

(** ** Entry fills: bracket prices and quantities *)

Section EntryFill.
Variables (h : Host) (ev : OrderEvent) (s : Algo).
Let order := GetOrderById h (OrderId ev).

Hypothesis Hfilled : Status ev = Filled.
Hypothesis Hsymbol : Symbol order = spy_Symbol.
Hypothesis Hmarket : Type_ order = Market.
Hypothesis Hstop : stop_loss_order_ticket s = None.
Hypothesis Htarget : profit_target_order_ticket s = None.
Hypothesis Hmatch : position_matches h (Direction order).

(** With a usable ATR the entry fill submits both bracket orders, and the
    tracking fields afterwards are decided by the gateway's two answers. *)
Lemma entry_fill_places_brackets :
  atr_IsReady h = true -> (0 < atr_Value h)%Q ->
  let d := Direction order in
  let cq := spec_close_quantity d (FillQuantity ev) in
  let sp := spec_stop_price d (FillPrice ev) (atr_Value h) in
  let tp := spec_target_price d (FillPrice ev) (atr_Value h) in
  let submitted :=
    [ALog "ENTRY FILL"; ALog "Placing SL/PT";
     AStopMarketOrder cq sp "ATR SL"; ALimitOrder cq tp "ATR PT";
     ALog (if OrderDirection_eqb d Buy
           then "Long SL placed" else "Short SL placed")] in
  run (OnOrderEvent h ev) s =
  match StopMarketOrder h cq sp, LimitOrder h cq tp with
  | Some t1, Some t2 =>
      ({| entry_price := FillPrice ev;
          stop_loss_order_ticket := Some t1;
          profit_target_order_ticket := Some t2 |}, submitted)
  | _, _ =>
      (Initialize,
       submitted ++
       [ALog "ERROR: Failed to create SL or PT order tickets. Liquidating position.";
        ALiquidate "SL/PT Creation Failed"])
  end.
Proof.
  intros Hready Hpos.
  rewrite (OnOrderEvent_entry_fill h ev s Hfilled Hsymbol Hmarket
             Hstop Htarget Hmatch), Hready.
  pose proof (Place_positive_atr h (Direction order) (AbsoluteFillQuantity ev)
                (FillPrice ev) (atr_Value h)
                {| entry_price := FillPrice ev;
                   stop_loss_order_ticket := None;
                   profit_target_order_ticket := None |}
                Hpos (position_matches_dir _ _ Hmatch) eq_refl eq_refl) as HP.
  cbv zeta in HP. cbv zeta.
  replace (spec_close_quantity (Direction order) (FillQuantity ev))
    with (if OrderDirection_eqb (Direction order) Buy
          then - AbsoluteFillQuantity ev else AbsoluteFillQuantity ev)
    by (destruct (position_matches_dir _ _ Hmatch) as [-> | ->]; reflexivity).
  revert HP. unfold run, bind, Log, emit.
  destruct (PlaceStopLossAndProfitTarget h _ _ _ _ _) as [[u s'] o].
  intros HP.
  destruct (StopMarketOrder h _ _) as [t1|];
    [destruct (LimitOrder h _ _) as [t2|]|];
    inversion HP; subst; reflexivity.
Qed.

(** Without a usable ATR the entry fill only asks for liquidation and
    leaves the fill price in [entry_price]. *)
Lemma entry_fill_sizing_failure :
  atr_IsReady h = false \/ (atr_Value h <= 0)%Q ->
  exists logs tag,
    run (OnOrderEvent h ev) s =
    ({| entry_price := FillPrice ev;
        stop_loss_order_ticket := None;
        profit_target_order_ticket := None |}, logs ++ [ALiquidate tag])
    /\ requests logs = [].
Proof.
  intros Hbad.
  rewrite (OnOrderEvent_entry_fill h ev s Hfilled Hsymbol Hmarket
             Hstop Htarget Hmatch).
  destruct (atr_IsReady h) eqn:Hready.
  - destruct Hbad as [Hbad | Hbad]; [discriminate|].
    unfold PlaceStopLossAndProfitTarget.
    rewrite (Qle_bool_true_of_nonpos _ Hbad).
    exists [ALog "ENTRY FILL";
            ALog "WARNING: ATR is zero or negative, cannot place SL/PT."],
           "Invalid ATR for SL/PT"%string.
    split; reflexivity.
  - exists [ALog "ENTRY FILL";
            ALog "WARNING: ATR not ready at time of fill. Cannot place SL/PT."],
           "ATR Not Ready on Fill"%string.
    split; reflexivity.
Qed.
End EntryFill.

(** C6. Bracket price derivation: on an entry fill at price [E] with a
    positive risk unit [A] (the ATR), a long entry submits its stop at
    [E - 1.5 A] and its limit at [E + 3 A], a short entry its stop at
    [E + 1.5 A] and its limit at [E - 3 A]; once the gateway has returned
    both tickets the state is OPEN_BRACKETED.  For [E = 100] and [A = 2]
    the long prices are 97 and 106. *)
Theorem bracket_price_derivation
    (h : Host) (ev : OrderEvent) (s : Algo) (d : OrderDirection) (E A : Q) :
  Status ev = Filled ->
  Symbol (GetOrderById h (OrderId ev)) = spy_Symbol ->
  Type_ (GetOrderById h (OrderId ev)) = Market ->
  Direction (GetOrderById h (OrderId ev)) = d ->
  stop_loss_order_ticket s = None ->
  profit_target_order_ticket s = None ->
  position_matches h d ->
  atr_IsReady h = true -> atr_Value h = A -> (0 < A)%Q ->
  FillPrice ev = E ->
  let q := spec_close_quantity d (FillQuantity ev) in
  let stop_price :=
    match d with
    | Buy => (E - (3 # 2) * A)%Q
    | _ => (E + (3 # 2) * A)%Q
    end in
  let target_price :=
    match d with
    | Buy => (E + (3 # 1) * A)%Q
    | _ => (E - (3 # 1) * A)%Q
    end in
  let brackets :=
    [AStopMarketOrder q stop_price "ATR SL";
     ALimitOrder q target_price "ATR PT"] in
  let s' := fst (run (OnOrderEvent h ev) s) in
  let out := snd (run (OnOrderEvent h ev) s) in
  filter is_bracket_submission out = brackets
  /\ (forall t1 t2,
        StopMarketOrder h q stop_price = Some t1 ->
        LimitOrder h q target_price = Some t2 ->
        requests out = brackets
        /\ s' = {| entry_price := E;
                   stop_loss_order_ticket := Some t1;
                   profit_target_order_ticket := Some t2 |}
        /\ OPEN_BRACKETED (Quantity h) s' = true)
  /\ (d = Buy -> (E == 100 # 1)%Q -> (A == 2 # 1)%Q ->
      (stop_price == 97 # 1)%Q /\ (target_price == 106 # 1)%Q).
Proof.
  intros Hst Hsym Hty Hd Hs Ht Hm Hready HA Hpos HE.
  subst d A E. cbv zeta.
  pose proof (position_matches_invested _ _ Hm) as Hinv.
  rewrite (entry_fill_places_brackets h ev s Hst Hsym Hty Hs Ht Hm Hready Hpos).
  destruct (position_matches_dir _ _ Hm) as [Hd | Hd]; rewrite Hd in *;
    cbn [spec_stop_price spec_target_price spec_close_quantity OrderDirection_eqb].
  - split; [|split].
    + destruct (StopMarketOrder h _ _); [destruct (LimitOrder h _ _)|]; reflexivity.
    + intros t1 t2 H1 H2. rewrite H1, H2. cbn [fst snd].
      unfold OPEN_BRACKETED. rewrite Hinv. repeat split.
    + intros _ HE HA. rewrite HE, HA. split; vm_compute; reflexivity.
  - split; [|split].
    + destruct (StopMarketOrder h _ _); [destruct (LimitOrder h _ _)|]; reflexivity.
    + intros t1 t2 H1 H2. rewrite H1, H2. cbn [fst snd].
      unfold OPEN_BRACKETED. rewrite Hinv. repeat split.
    + intros HB. discriminate HB.
Qed.

(** Scenario A: flat, long entry of 10 shares filled at 100 with ATR 2. *)
Lemma bracket_price_derivation_witness :
  filter is_bracket_submission
    (snd (run (OnOrderEvent host_long (filled 1 (100 # 1) 10)) Initialize))
  = [AStopMarketOrder (-10) ((100 # 1) - (3 # 2) * (2 # 1))%Q "ATR SL";
     ALimitOrder (-10) ((100 # 1) + (3 # 1) * (2 # 1))%Q "ATR PT"]
  /\ OPEN_BRACKETED (Quantity host_long)
       (fst (run (OnOrderEvent host_long (filled 1 (100 # 1) 10)) Initialize))
     = true
  /\ ((100 # 1) - (3 # 2) * (2 # 1) == 97 # 1)%Q
  /\ ((100 # 1) + (3 # 1) * (2 # 1) == 106 # 1)%Q.
Proof.
  destruct (bracket_price_derivation host_long (filled 1 (100 # 1) 10)
              Initialize Buy (100 # 1) (2 # 1))
    as [H1 [H2 H3]];
    try reflexivity.
  - left. split; [reflexivity | vm_compute; reflexivity].
  - split; [exact H1 |].
    destruct (H2 {| TicketOrderId := 7 |} {| TicketOrderId := 8 |}
                eq_refl eq_refl) as [_ [_ H4]].
    split; [exact H4 |].
    apply H3; reflexivity.
Defined.

Lemma no_bracket_in_logs (l : list Action) :
  requests l = [] -> filter is_bracket_submission l = [].
Proof.
  unfold requests. induction l as [|y l IH]; cbn [filter]; [reflexivity|].
  destruct y; cbn [is_request is_bracket_submission]; try discriminate; auto.
Qed.

(** The bracket submissions of an accepted entry fill: a stop and a limit
    order when the ATR is ready and positive, none otherwise. *)
Lemma entry_fill_bracket_submissions (h : Host) (ev : OrderEvent) (s : Algo) :
  Status ev = Filled ->
  Symbol (GetOrderById h (OrderId ev)) = spy_Symbol ->
  Type_ (GetOrderById h (OrderId ev)) = Market ->
  stop_loss_order_ticket s = None ->
  profit_target_order_ticket s = None ->
  position_matches h (Direction (GetOrderById h (OrderId ev))) ->
  let d := Direction (GetOrderById h (OrderId ev)) in
  let cq := spec_close_quantity d (FillQuantity ev) in
  filter is_bracket_submission (snd (run (OnOrderEvent h ev) s)) =
  if atr_IsReady h && negb (Qle_bool (atr_Value h) 0) then
    [AStopMarketOrder cq (spec_stop_price d (FillPrice ev) (atr_Value h)) "ATR SL";
     ALimitOrder cq (spec_target_price d (FillPrice ev) (atr_Value h)) "ATR PT"]
  else [].
Proof.
  intros Hst Hsym Hty Hs Ht Hm. cbv zeta.
  destruct (atr_IsReady h) eqn:Hready;
    [destruct (Qle_bool (atr_Value h) 0) eqn:Hle|]; cbn [andb negb].
  - apply Qle_bool_iff in Hle.
    destruct (entry_fill_sizing_failure h ev s Hst Hsym Hty Hs Ht Hm
                (or_intror Hle)) as (logs & tag & Hrun & Hlogs).
    rewrite Hrun. cbn [snd].
    now rewrite filter_app, (no_bracket_in_logs _ Hlogs).
  - assert (Hpos : (0 < atr_Value h)%Q).
    { apply Qnot_le_lt. intros H. apply Qle_bool_iff in H. congruence. }
    rewrite (entry_fill_places_brackets h ev s Hst Hsym Hty Hs Ht Hm Hready Hpos).
    destruct (StopMarketOrder h _ _); [destruct (LimitOrder h _ _)|]; reflexivity.
  - destruct (entry_fill_sizing_failure h ev s Hst Hsym Hty Hs Ht Hm
                (or_introl Hready)) as (logs & tag & Hrun & Hlogs).
    rewrite Hrun. cbn [snd].
    now rewrite filter_app, (no_bracket_in_logs _ Hlogs).
Qed.

(** C7. Closing order quantity: on every entry fill, each bracket order that
    is submitted carries the absolute filled quantity of the fill event with
    the sign inverted relative to the entry (negative after a Buy, positive
    after a Sell); with a usable ATR these are exactly one stop and one limit
    order; the quantity comes from the event and does not change with the
    holding the portfolio reports. *)
Theorem closing_order_quantity
    (h : Host) (ev : OrderEvent) (s : Algo) (d : OrderDirection) :
  Status ev = Filled ->
  Symbol (GetOrderById h (OrderId ev)) = spy_Symbol ->
  Type_ (GetOrderById h (OrderId ev)) = Market ->
  Direction (GetOrderById h (OrderId ev)) = d ->
  stop_loss_order_ticket s = None ->
  profit_target_order_ticket s = None ->
  position_matches h d ->
  let cq :=
    match d with
    | Buy => - AbsoluteFillQuantity ev
    | _ => AbsoluteFillQuantity ev
    end in
  let out := snd (run (OnOrderEvent h ev) s) in
  (forall x, In x out -> is_bracket_submission x = true ->
             submitted_quantity x = Some cq)
  /\ (atr_IsReady h = true -> (0 < atr_Value h)%Q ->
      exists p1 p2,
        filter is_bracket_submission out =
        [AStopMarketOrder cq p1 "ATR SL"; ALimitOrder cq p2 "ATR PT"])
  /\ (d = Buy -> cq <= 0) /\ (d = Sell -> 0 <= cq)
  /\ (forall holding,
        position_matches (with_position holding h) d ->
        snd (run (OnOrderEvent (with_position holding h) ev) s) = out).
Proof.
  intros Hst Hsym Hty Hd Hs Ht Hm. subst d. cbv zeta.
  pose proof (entry_fill_bracket_submissions h ev s Hst Hsym Hty Hs Ht Hm) as HB.
  cbv zeta in HB.
  replace (spec_close_quantity (Direction (GetOrderById h (OrderId ev)))
             (FillQuantity ev))
    with (match Direction (GetOrderById h (OrderId ev)) with
          | Buy => - AbsoluteFillQuantity ev
          | _ => AbsoluteFillQuantity ev
          end) in HB
    by (destruct (Direction _); reflexivity).
  split; [|split; [|split; [|split]]].
  - intros x Hin Hx.
    assert (Hf : In x (filter is_bracket_submission
                         (snd (run (OnOrderEvent h ev) s))))
      by (apply filter_In; auto).
    rewrite HB in Hf.
    destruct (atr_IsReady h && negb (Qle_bool (atr_Value h) 0));
      cbn [In] in Hf; [|tauto].
    destruct Hf as [<- | [<- | []]]; reflexivity.
  - intros Hready Hpos.
    rewrite HB, Hready, (Qle_bool_false_of_pos _ Hpos). cbn [andb negb].
    eexists. eexists. reflexivity.
  - intros ->. unfold AbsoluteFillQuantity. lia.
  - intros ->. unfold AbsoluteFillQuantity. lia.
  - intros holding Hm'.
    rewrite (OnOrderEvent_entry_fill h ev s Hst Hsym Hty Hs Ht Hm).
    rewrite (OnOrderEvent_entry_fill (with_position holding h) ev s
               Hst Hsym Hty Hs Ht Hm').
    reflexivity.
Qed.

(** A sell entry of 10 shares: both brackets are buys of 10, also when the
    portfolio reports a short holding of 25. *)
Lemma closing_order_quantity_witness :
  filter is_bracket_submission
    (snd (run (OnOrderEvent (with_position (-10) host_long)
                 (filled 2 (100 # 1) (-10))) Initialize))
  = [AStopMarketOrder 10 ((100 # 1) + (3 # 2) * (2 # 1))%Q "ATR SL";
     ALimitOrder 10 ((100 # 1) - (3 # 1) * (2 # 1))%Q "ATR PT"]
  /\ snd (run (OnOrderEvent (with_position (-25) (with_position (-10) host_long))
                (filled 2 (100 # 1) (-10))) Initialize)
     = snd (run (OnOrderEvent (with_position (-10) host_long)
                   (filled 2 (100 # 1) (-10))) Initialize).
Proof.
  destruct (closing_order_quantity (with_position (-10) host_long)
              (filled 2 (100 # 1) (-10)) Initialize Sell)
    as [_ [H2 [_ [_ H5]]]];
    try reflexivity.
  - right. split; [reflexivity | vm_compute; reflexivity].
  - split.
    + reflexivity.
    + apply H5. right. split; [reflexivity | vm_compute; reflexivity].
Defined.

(** ** Sizing failure and stale market fills *)

Lemma position_after_app (l1 l2 : list Action) (q : Z) :
  position_after (l1 ++ l2) q = position_after l2 (position_after l1 q).
Proof.
  revert q. induction l1 as [|x l1 IH]; intros q; [reflexivity|].
  destruct x; cbn [app position_after]; apply IH.
Qed.

Lemma requests_app (l1 l2 : list Action) :
  requests (l1 ++ l2) = requests l1 ++ requests l2.
Proof. apply filter_app. Qed.

(** C4. Sizing failure handling: an entry fill processed while the ATR is
    not ready, or ready with a value that is not positive, makes the
    controller request liquidation and nothing else, submit no stop or target
    order, and keep both ticket references absent, so that the state derived
    once the engine has carried out the liquidation is FLAT. *)
Theorem sizing_failure_handling (h : Host) (ev : OrderEvent) (s : Algo) :
  Status ev = Filled ->
  Symbol (GetOrderById h (OrderId ev)) = spy_Symbol ->
  Type_ (GetOrderById h (OrderId ev)) = Market ->
  stop_loss_order_ticket s = None ->
  profit_target_order_ticket s = None ->
  position_matches h (Direction (GetOrderById h (OrderId ev))) ->
  atr_IsReady h = false \/ (atr_Value h <= 0)%Q ->
  let s' := fst (run (OnOrderEvent h ev) s) in
  let out := snd (run (OnOrderEvent h ev) s) in
  (exists tag, requests out = [ALiquidate tag])
  /\ filter is_bracket_submission out = []
  /\ stop_loss_order_ticket s' = None
  /\ profit_target_order_ticket s' = None
  /\ FLAT (position_after out (Quantity h)) s' = true.
Proof.
  intros Hst Hsym Hty Hs Ht Hm Hbad. cbv zeta.
  destruct (entry_fill_sizing_failure h ev s Hst Hsym Hty Hs Ht Hm Hbad)
    as (logs & tag & Hrun & Hlogs).
  rewrite Hrun. cbn [fst snd stop_loss_order_ticket profit_target_order_ticket].
  repeat split.
  - exists tag. now rewrite requests_app, Hlogs.
  - now rewrite filter_app, (no_bracket_in_logs _ Hlogs).
  - now rewrite position_after_app.
Qed.

(** Scenario C: entry of 10 shares filled at 50 while the ATR is not ready. *)
Lemma sizing_failure_handling_witness :
  (exists tag,
      requests (snd (run (OnOrderEvent (with_atr false 0 host_long)
                            (filled 1 (50 # 1) 10)) Initialize))
      = [ALiquidate tag])
  /\ FLAT (position_after
             (snd (run (OnOrderEvent (with_atr false 0 host_long)
                          (filled 1 (50 # 1) 10)) Initialize)) 10)
          (fst (run (OnOrderEvent (with_atr false 0 host_long)
                       (filled 1 (50 # 1) 10)) Initialize))
     = true.
Proof.
  destruct (sizing_failure_handling (with_atr false 0 host_long)
              (filled 1 (50 # 1) 10) Initialize)
    as [H1 [_ [_ [_ H5]]]];
    try reflexivity.
  - left. split; [reflexivity | vm_compute; reflexivity].
  - left. reflexivity.
  - split; [exact H1 | exact H5].
Defined.

Lemma direction_matches_false (h : Host) (d : OrderDirection) :
  ~ position_matches h d -> direction_matches h d = false.
Proof.
  intros Hn. unfold direction_matches, IsLong, IsShort.
  destruct (OrderDirection_eqb d Buy && (0 <? Quantity h)) eqn:E1.
  - exfalso. apply Hn. left. apply andb_prop in E1 as [E1 E2].
    apply Z.ltb_lt in E2. destruct d; try discriminate; auto.
  - destruct (OrderDirection_eqb d Sell && (Quantity h <? 0)) eqn:E2; [|reflexivity].
    exfalso. apply Hn. right. apply andb_prop in E2 as [E2 E3].
    apply Z.ltb_lt in E3. destruct d; try discriminate; auto.
Qed.

Lemma flat_matches_no_direction (h : Host) (d : OrderDirection) :
  Quantity h = 0 -> ~ position_matches h d.
Proof. intros H0 [[_ H] | [_ H]]; lia. Qed.

(** C10. A Filled event of a market order that arrives while both ticket
    references are absent and the portfolio position does not agree with the
    direction of the order (as after a liquidation, which leaves the
    portfolio flat) changes no tracking field and produces no action at
    all. *)
Theorem stale_market_fill_is_ignored (h : Host) (ev : OrderEvent) (s : Algo) :
  Status ev = Filled ->
  Type_ (GetOrderById h (OrderId ev)) = Market ->
  stop_loss_order_ticket s = None ->
  profit_target_order_ticket s = None ->
  ~ position_matches h (Direction (GetOrderById h (OrderId ev))) ->
  run (OnOrderEvent h ev) s = (s, []).
Proof.
  intros Hst Hty Hs Ht Hn.
  destruct s as [ep st tg]; cbn in Hs, Ht; subst st tg.
  pose proof (direction_matches_false _ _ Hn) as Hd.
  unfold direction_matches in Hd.
  unfold OnOrderEvent. rewrite Hst, Hty, Hd.
  destruct (String.eqb _ _); reflexivity.
Qed.

(** The fill of the market sell that liquidated a long position, reported
    when the portfolio is flat again. *)
Lemma stale_market_fill_is_ignored_witness :
  run (OnOrderEvent host_flat (filled 2 (101 # 1) (-10))) Initialize
  = (Initialize, []).
Proof.
  apply stale_market_fill_is_ignored; try reflexivity.
  apply flat_matches_no_direction. reflexivity.
Defined.

(** ** One-cancels-other and the manual exit *)

Lemma Qlt_bool_iff (x y : Q) : Qlt_bool x y = true <-> (x < y)%Q.
Proof.
  unfold Qlt_bool. split.
  - intros H. apply Qnot_le_lt. intros Hle. apply Qle_bool_iff in Hle.
    rewrite Hle in H. discriminate H.
  - intros H. destruct (Qle_bool y x) eqn:E; [|reflexivity].
    apply Qle_bool_iff in E. exfalso. apply (Qlt_not_le _ _ H E).
Qed.

(** A Filled event for an order that is not a market order, delivered when no
    ticket is tracked, does nothing. *)
Lemma bracket_fill_after_reset (h : Host) (ev : OrderEvent) (s : Algo) :
  Status ev = Filled ->
  Type_ (GetOrderById h (OrderId ev)) <> Market ->
  stop_loss_order_ticket s = None ->
  profit_target_order_ticket s = None ->
  run (OnOrderEvent h ev) s = (s, []).
Proof.
  intros Hst Hty Hs Ht.
  destruct s as [ep st tg]; cbn in Hs, Ht; subst st tg.
  unfold OnOrderEvent. rewrite Hst.
  destruct (Type_ (GetOrderById h (OrderId ev))); try contradiction;
    destruct (String.eqb _ _); reflexivity.
Qed.

(** The first fill of a leg of a fully tracked bracket: the other leg is
    cancelled and the tracking fields are reset. *)
Lemma stop_fill_honored (h : Host) (ev : OrderEvent) (s : Algo)
    (t1 t2 : OrderTicket) :
  stop_loss_order_ticket s = Some t1 ->
  profit_target_order_ticket s = Some t2 ->
  Status ev = Filled -> OrderId ev = TicketOrderId t1 ->
  run (OnOrderEvent h ev) s =
  (Initialize, [ALog "STOP LOSS FILLED"; ACancel t2 "Stop Loss Hit"]).
Proof.
  intros Hs Ht Hst Hid.
  destruct s as [ep st tg]; cbn in Hs, Ht; subst st tg.
  destruct t1 as [i1]; cbn [TicketOrderId] in Hid.
  unfold OnOrderEvent. rewrite Hst, Hid. exec.
  rewrite Z.eqb_refl.
  destruct (String.eqb _ _); try reflexivity; destruct (Type_ _); reflexivity.
Qed.

Lemma target_fill_honored (h : Host) (ev : OrderEvent) (s : Algo)
    (t1 t2 : OrderTicket) :
  stop_loss_order_ticket s = Some t1 ->
  profit_target_order_ticket s = Some t2 ->
  TicketOrderId t1 <> TicketOrderId t2 ->
  Status ev = Filled -> OrderId ev = TicketOrderId t2 ->
  run (OnOrderEvent h ev) s =
  (Initialize, [ALog "PROFIT TARGET FILLED"; ACancel t1 "Profit Target Hit"]).
Proof.
  intros Hs Ht Hne Hst Hid.
  destruct s as [ep st tg]; cbn in Hs, Ht; subst st tg.
  destruct t1 as [i1], t2 as [i2]; cbn [TicketOrderId] in Hne, Hid.
  unfold OnOrderEvent. rewrite Hst, Hid. exec.
  rewrite Z.eqb_refl.
  assert (Hneq : (i2 =? i1) = false) by (apply Z.eqb_neq; congruence).
  rewrite Hneq.
  destruct (String.eqb _ _); try reflexivity; destruct (Type_ _); reflexivity.
Qed.

(** C1. OCO exclusivity: from a state tracking both legs of a bracket, when
    the fill of the stop and the fill of the target are both delivered, in
    either order, the first one is honoured (the other leg is cancelled and
    the tracking fields are reset) and the second one finds both references
    cleared and changes nothing.  [h1] is the engine at the first delivery,
    [h2] at the second. *)
Theorem oco_exclusivity
    (h1 h2 : Host) (s : Algo) (t_stop t_target : OrderTicket)
    (stop_fill target_fill : OrderEvent) :
  stop_loss_order_ticket s = Some t_stop ->
  profit_target_order_ticket s = Some t_target ->
  TicketOrderId t_stop <> TicketOrderId t_target ->
  Status stop_fill = Filled -> OrderId stop_fill = TicketOrderId t_stop ->
  Status target_fill = Filled -> OrderId target_fill = TicketOrderId t_target ->
  Type_ (GetOrderById h2 (TicketOrderId t_stop)) = StopMarket ->
  Type_ (GetOrderById h2 (TicketOrderId t_target)) = Limit ->
  (let '(s1, out1) := run (OnOrderEvent h1 stop_fill) s in
   let '(s2, out2) := run (OnOrderEvent h2 target_fill) s1 in
   requests out1 = [ACancel t_target "Stop Loss Hit"]
   /\ s1 = Initialize /\ s2 = s1 /\ out2 = [])
  /\
  (let '(s1, out1) := run (OnOrderEvent h1 target_fill) s in
   let '(s2, out2) := run (OnOrderEvent h2 stop_fill) s1 in
   requests out1 = [ACancel t_stop "Profit Target Hit"]
   /\ s1 = Initialize /\ s2 = s1 /\ out2 = []).
Proof.
  intros Hs Ht Hne Hst1 Hid1 Hst2 Hid2 Hty1 Hty2.
  split.
  - rewrite (stop_fill_honored h1 stop_fill s t_stop t_target Hs Ht Hst1 Hid1).
    rewrite (bracket_fill_after_reset h2 target_fill Initialize Hst2);
      [repeat split | rewrite Hid2, Hty2; discriminate | reflexivity | reflexivity].
  - rewrite (target_fill_honored h1 target_fill s t_stop t_target
               Hs Ht Hne Hst2 Hid2).
    rewrite (bracket_fill_after_reset h2 stop_fill Initialize Hst1);
      [repeat split | rewrite Hid1, Hty1; discriminate | reflexivity | reflexivity].
Qed.

(** Scenarios B and D: stop 7 and target 8 guard a long entered at 100; the
    second fill is delivered when the portfolio is flat again. *)
Lemma oco_exclusivity_witness :
  (let '(s1, out1) :=
     run (OnOrderEvent host_long (filled 7 (97 # 1) (-10)))
         (bracketed (100 # 1) 7 8) in
   let '(s2, out2) := run (OnOrderEvent host_flat (filled 8 (106 # 1) (-10))) s1 in
   requests out1 = [ACancel {| TicketOrderId := 8 |} "Stop Loss Hit"]
   /\ s1 = Initialize /\ s2 = s1 /\ out2 = [])
  /\
  (let '(s1, out1) :=
     run (OnOrderEvent host_long (filled 8 (106 # 1) (-10)))
         (bracketed (100 # 1) 7 8) in
   let '(s2, out2) := run (OnOrderEvent host_flat (filled 7 (97 # 1) (-10))) s1 in
   requests out1 = [ACancel {| TicketOrderId := 7 |} "Profit Target Hit"]
   /\ s1 = Initialize /\ s2 = s1 /\ out2 = []).
Proof.
  apply (oco_exclusivity host_long host_flat (bracketed (100 # 1) 7 8)
           {| TicketOrderId := 7 |} {| TicketOrderId := 8 |}
           (filled 7 (97 # 1) (-10)) (filled 8 (106 # 1) (-10)));
    try reflexivity.
  cbn [TicketOrderId]. lia.
Defined.

(** The exit branch of [OnData] for a tracked bracket (lines 122-132 and
    251-260). *)
Lemma OnData_exit (h : Host) (bar : TradeBar) (s : Algo) (t1 t2 : OrderTicket) :
  tick_evaluated h = true ->
  exit_signal h = true ->
  stop_loss_order_ticket s = Some t1 ->
  profit_target_order_ticket s = Some t2 ->
  fst (run (OnData h (Some bar)) s) = Initialize
  /\ requests (snd (run (OnData h (Some bar)) s)) =
     ALiquidate "RSI Exit"
     :: (if IsActive h t1 then [ACancel t1 "Position Closed Manually"] else [])
     ++ (if IsActive h t2 then [ACancel t2 "Position Closed Manually"] else []).
Proof.
  intros Htick Hexit Hs Ht.
  destruct s as [ep st tg]; cbn in Hs, Ht; subst st tg.
  unfold tick_evaluated in Htick.
  apply andb_prop in Htick as [Htick Hkr].
  apply andb_prop in Htick as [Htick Hatr].
  apply andb_prop in Htick as [Hwarm Hrsi].
  apply negb_true_iff in Hwarm.
  assert (Hinv : Invested h = true).
  { unfold exit_signal, IsLong, IsShort in Hexit. unfold Invested.
    apply negb_true_iff, Z.eqb_neq.
    apply orb_prop in Hexit as [H | H]; apply andb_prop in H as [H _];
      apply Z.ltb_lt in H; lia. }
  unfold OnData. rewrite Hwarm, Hrsi, Hatr, Hkr, Hinv. cbn [negb orb].
  unfold exit_signal in Hexit.
  destruct (IsLong h && Qlt_bool rsi_exit_level (rsi_Value h)) eqn:Hlong.
  - unfold CancelStopLossAndProfitTarget. exec.
    destruct (IsActive h t1), (IsActive h t2); split; reflexivity.
  - cbn [orb] in Hexit. rewrite Hexit.
    unfold CancelStopLossAndProfitTarget. exec.
    destruct (IsActive h t1), (IsActive h t2); split; reflexivity.
Qed.

(** C9. ExitNow handling: when a tick is evaluated in a state tracking both
    bracket legs and the RSI has crossed the exit level against the position,
    the controller requests full liquidation, cancels each bracket leg that
    is active (both of them when both are), and in the same step clears the
    entry price and both ticket references; a fill of either leg processed
    afterwards changes nothing. *)
Theorem exit_now_handling
    (h : Host) (bar : TradeBar) (s : Algo) (t1 t2 : OrderTicket) :
  tick_evaluated h = true ->
  stop_loss_order_ticket s = Some t1 ->
  profit_target_order_ticket s = Some t2 ->
  (0 < Quantity h /\ (rsi_exit_level < rsi_Value h)%Q)
  \/ (Quantity h < 0 /\ (rsi_Value h < rsi_exit_level)%Q) ->
  let s' := fst (run (OnData h (Some bar)) s) in
  let out := snd (run (OnData h (Some bar)) s) in
  requests out =
    ALiquidate "RSI Exit"
    :: (if IsActive h t1 then [ACancel t1 "Position Closed Manually"] else [])
    ++ (if IsActive h t2 then [ACancel t2 "Position Closed Manually"] else [])
  /\ (IsActive h t1 = true -> IsActive h t2 = true ->
      requests out =
      [ALiquidate "RSI Exit"; ACancel t1 "Position Closed Manually";
       ACancel t2 "Position Closed Manually"])
  /\ entry_price s' = 0%Q
  /\ stop_loss_order_ticket s' = None
  /\ profit_target_order_ticket s' = None
  /\ (forall h' ev,
        Status ev = Filled ->
        OrderId ev = TicketOrderId t1 \/ OrderId ev = TicketOrderId t2 ->
        Type_ (GetOrderById h' (OrderId ev)) <> Market ->
        run (OnOrderEvent h' ev) s' = (s', [])).
Proof.
  intros Htick Hs Ht Hexit. cbv zeta.
  assert (Hsig : exit_signal h = true).
  { unfold exit_signal, IsLong, IsShort.
    destruct Hexit as [[Hq Hr] | [Hq Hr]];
      apply Z.ltb_lt in Hq; apply Qlt_bool_iff in Hr; rewrite Hq, Hr;
      [reflexivity | apply orb_true_r]. }
  destruct (OnData_exit h bar s t1 t2 Htick Hsig Hs Ht) as [Hstate Hreq].
  rewrite Hstate, Hreq.
  split; [reflexivity|]. split; [intros -> ->; reflexivity|].
  repeat split.
  intros h' ev Hst _ Hty.
  apply bracket_fill_after_reset; auto.
Qed.

(** A long guarded by stop 7 and target 8, RSI at 60. *)
Lemma exit_now_handling_witness :
  requests (snd (run (OnData (with_rsi (60 # 1) host_long) (Some bar_400))
                     (bracketed (100 # 1) 7 8)))
  = [ALiquidate "RSI Exit";
     ACancel {| TicketOrderId := 7 |} "Position Closed Manually";
     ACancel {| TicketOrderId := 8 |} "Position Closed Manually"]
  /\ run (OnOrderEvent host_flat (filled 7 (97 # 1) (-10)))
         (fst (run (OnData (with_rsi (60 # 1) host_long) (Some bar_400))
                   (bracketed (100 # 1) 7 8)))
     = (fst (run (OnData (with_rsi (60 # 1) host_long) (Some bar_400))
                 (bracketed (100 # 1) 7 8)), []).
Proof.
  destruct (exit_now_handling (with_rsi (60 # 1) host_long) bar_400
              (bracketed (100 # 1) 7 8)
              {| TicketOrderId := 7 |} {| TicketOrderId := 8 |})
    as [_ [H2 [_ [_ [_ H6]]]]];
    try reflexivity.
  - left. split; vm_compute; reflexivity.
  - split.
    + apply H2; reflexivity.
    + apply H6; [reflexivity | left; reflexivity | discriminate].
Defined.

(** ** Redelivery of an order event *)

(** A Filled event that is not accepted as an entry fill is either ignored
    or is the fill of a tracked leg, which resets the tracking fields. *)
Lemma filled_not_accepted (h : Host) (ev : OrderEvent) (s : Algo) :
  Status ev = Filled ->
  entry_fill_accepted h ev s = false ->
  run (OnOrderEvent h ev) s = (s, [])
  \/ (fst (run (OnOrderEvent h ev) s) = Initialize
      /\ exists t,
           (stop_loss_order_ticket s = Some t
            \/ profit_target_order_ticket s = Some t)
           /\ OrderId ev = TicketOrderId t).
Proof.
  intros Hst Hacc. unfold entry_fill_accepted, direction_matches in Hacc.
  rewrite Hst in Hacc. cbn [OrderStatus_eqb andb] in Hacc.
  destruct s as [ep st tg]. unfold OnOrderEvent. rewrite run_bind_self, Hst.
  unfold bracket_absent in Hacc.
  cbn [stop_loss_order_ticket profit_target_order_ticket OrderStatus_eqb]
    in Hacc |- *.
  destruct st as [[i1]|], tg as [[i2]|]; cbn [is_None] in Hacc |- *;
    rewrite ?andb_false_r, ?andb_true_r in Hacc |- *; cbn [andb] in Hacc |- *.
  - exec. destruct (OrderId ev =? i1) eqn:E1.
    + right. split; [reflexivity|].
      exists {| TicketOrderId := i1 |}. split; [now left|].
      now apply Z.eqb_eq in E1.
    + destruct (OrderId ev =? i2) eqn:E2.
      * right. split; [reflexivity|].
        exists {| TicketOrderId := i2 |}. split; [now right|].
        now apply Z.eqb_eq in E2.
      * now left.
  - exec. destruct (OrderId ev =? i1) eqn:E1.
    + right. split; [reflexivity|].
      exists {| TicketOrderId := i1 |}. split; [now left|].
      now apply Z.eqb_eq in E1.
    + now left.
  - exec. destruct (OrderId ev =? i2) eqn:E2.
    + right. split; [reflexivity|].
      exists {| TicketOrderId := i2 |}. split; [now right|].
      now apply Z.eqb_eq in E2.
    + now left.
  - left.
    destruct (String.eqb _ _ && OrderType_eqb _ _) eqn:G;
      cbn [andb] in Hacc |- *.
    + rewrite Hacc. reflexivity.
    + reflexivity.
Qed.

(** Events other than fills: cancellations clear the matching reference,
    failures reset when flat; neither asks anything of the gateway, and a
    second delivery finds nothing left to change. *)
Lemma not_filled_redelivery (h : Host) (ev : OrderEvent) (s : Algo) :
  Status ev <> Filled -> second_delivery_is_noop h ev s.
Proof.
  intros Hst. unfold second_delivery_is_noop. cbv zeta.
  destruct s as [ep st tg].
  destruct (Status ev) eqn:E; try contradiction;
    unfold OnOrderEvent; rewrite E;
    destruct st as [[i1]|], tg as [[i2]|]; exec;
    repeat match goal with
      | |- context [Invested h] => destruct (Invested h) eqn:?
      | |- context [OrderId ev =? ?i] => destruct (OrderId ev =? i) eqn:?
      | |- context [Type_ ?o] => destruct (Type_ o) eqn:?
      end;
    try congruence; split; reflexivity.
Qed.

(** A fill of an order that is neither tracked leg, delivered to a state
    tracking both legs, is ignored. *)
Lemma unrelated_fill_ignored (h : Host) (ev : OrderEvent) (ep : Q)
    (t1 t2 : OrderTicket) :
  Status ev = Filled ->
  TicketOrderId t1 <> OrderId ev -> TicketOrderId t2 <> OrderId ev ->
  let s := {| entry_price := ep;
              stop_loss_order_ticket := Some t1;
              profit_target_order_ticket := Some t2 |} in
  run (OnOrderEvent h ev) s = (s, []).
Proof.
  intros Hst H1 H2. cbv zeta. destruct t1 as [i1], t2 as [i2].
  cbn [TicketOrderId] in H1, H2.
  unfold OnOrderEvent. rewrite run_bind_self, Hst.
  cbn [stop_loss_order_ticket profit_target_order_ticket OrderStatus_eqb is_None].
  rewrite !andb_false_r. exec.
  assert (E1 : (OrderId ev =? i1) = false) by (apply Z.eqb_neq; congruence).
  assert (E2 : (OrderId ev =? i2) = false) by (apply Z.eqb_neq; congruence).
  rewrite E1, E2. reflexivity.
Qed.

Lemma entry_fill_accepted_inv (h : Host) (ev : OrderEvent) (s : Algo) :
  entry_fill_accepted h ev s = true ->
  Status ev = Filled
  /\ Symbol (GetOrderById h (OrderId ev)) = spy_Symbol
  /\ Type_ (GetOrderById h (OrderId ev)) = Market
  /\ stop_loss_order_ticket s = None
  /\ profit_target_order_ticket s = None
  /\ position_matches h (Direction (GetOrderById h (OrderId ev))).
Proof.
  unfold entry_fill_accepted, bracket_absent, direction_matches, IsLong, IsShort.
  intros H.
  apply andb_prop in H as [H Hdir].
  apply andb_prop in H as [H Habs].
  apply andb_prop in H as [H Hty].
  apply andb_prop in H as [Hst Hsym].
  apply andb_prop in Habs as [Hs Ht].
  repeat split.
  - destruct (Status ev); try discriminate; reflexivity.
  - now apply String.eqb_eq.
  - destruct (Type_ _); try discriminate; reflexivity.
  - destruct (stop_loss_order_ticket s); [discriminate | reflexivity].
  - destruct (profit_target_order_ticket s); [discriminate | reflexivity].
  - apply orb_prop in Hdir as [Hd | Hd]; apply andb_prop in Hd as [Hd Hq];
      apply Z.ltb_lt in Hq;
      destruct (Direction _); try discriminate; [left | right]; auto.
Qed.

Lemma bracket_absent_inv (s : Algo) :
  bracket_absent s = true ->
  stop_loss_order_ticket s = None /\ profit_target_order_ticket s = None.
Proof.
  unfold bracket_absent. intros H. apply andb_prop in H as [H1 H2].
  destruct (stop_loss_order_ticket s), (profit_target_order_ticket s);
    try discriminate; auto.
Qed.

(** An accepted entry fill, by outcome: both tickets tracked, or no ticket
    tracked and a liquidation requested. *)
Lemma entry_fill_outcome (h : Host) (ev : OrderEvent) (s : Algo) :
  entry_fill_accepted h ev s = true ->
  (exists t1 t2 out,
      StopMarketOrder h
        (spec_close_quantity (Direction (GetOrderById h (OrderId ev)))
           (FillQuantity ev))
        (spec_stop_price (Direction (GetOrderById h (OrderId ev)))
           (FillPrice ev) (atr_Value h)) = Some t1
      /\ LimitOrder h
           (spec_close_quantity (Direction (GetOrderById h (OrderId ev)))
              (FillQuantity ev))
           (spec_target_price (Direction (GetOrderById h (OrderId ev)))
              (FillPrice ev) (atr_Value h)) = Some t2
      /\ run (OnOrderEvent h ev) s =
         ({| entry_price := FillPrice ev;
             stop_loss_order_ticket := Some t1;
             profit_target_order_ticket := Some t2 |}, out))
  \/ (exists s1 out tag,
         run (OnOrderEvent h ev) s = (s1, out ++ [ALiquidate tag])
         /\ bracket_absent s1 = true).
Proof.
  intros Hacc.
  destruct (entry_fill_accepted_inv _ _ _ Hacc)
    as (Hst & Hsym & Hty & Hs & Ht & Hm).
  destruct (atr_IsReady h) eqn:Hready;
    [destruct (Qlt_le_dec 0 (atr_Value h)) as [Hpos | Hneg]|].
  - rewrite (entry_fill_places_brackets h ev s Hst Hsym Hty Hs Ht Hm Hready Hpos).
    destruct (StopMarketOrder h _ _) as [t1|] eqn:E1;
      [destruct (LimitOrder h _ _) as [t2|] eqn:E2|].
    + left. exists t1, t2. eexists. repeat split; reflexivity.
    + right. exists Initialize. eexists. eexists. split; [|reflexivity].
      match goal with
      | |- (_, ?l ++ [?x; ?y]) = _ =>
          change (l ++ [x; y]) with (l ++ ([x] ++ [y]));
          rewrite (app_assoc l [x] [y])
      end.
      reflexivity.
    + right. exists Initialize. eexists. eexists. split; [|reflexivity].
      match goal with
      | |- (_, ?l ++ [?x; ?y]) = _ =>
          change (l ++ [x; y]) with (l ++ ([x] ++ [y]));
          rewrite (app_assoc l [x] [y])
      end.
      reflexivity.
  - destruct (entry_fill_sizing_failure h ev s Hst Hsym Hty Hs Ht Hm
                (or_intror Hneg)) as (logs & tag & Hrun & _).
    right. eexists. exists logs, tag. split; [exact Hrun | reflexivity].
  - destruct (entry_fill_sizing_failure h ev s Hst Hsym Hty Hs Ht Hm
                (or_introl Hready)) as (logs & tag & Hrun & _).
    right. eexists. exists logs, tag. split; [exact Hrun | reflexivity].
Qed.

(** C8, as amended.  Against one engine snapshot, delivering an order event
    a second time always leaves the tracking fields as the first delivery
    left them.  It asks nothing more of the gateway, except after an entry
    fill that ended without a tracked bracket (ATR not usable, or a bracket
    submission refused): both references are then still absent, the
    duplicate passes the ticket-absent check, and the whole processing,
    liquidation request included, is repeated. *)
Theorem redelivery_of_order_event (h : Host) (ev : OrderEvent) (s : Algo) :
  tracked_are_brackets h s ->
  gateway_fresh h (OrderId ev) ->
  let r1 := run (OnOrderEvent h ev) s in
  let r2 := run (OnOrderEvent h ev) (fst r1) in
  fst r2 = fst r1
  /\ (entry_fill_failed h ev s = false -> requests (snd r2) = [])
  /\ (entry_fill_failed h ev s = true ->
      snd r2 = snd r1 /\ exists tag, In (ALiquidate tag) (snd r2)).
Proof.
  intros Htracked Hfresh. cbv zeta. unfold entry_fill_failed.
  destruct (entry_fill_accepted h ev s) eqn:Hacc; cbn [andb].
  - destruct (entry_fill_accepted_inv _ _ _ Hacc)
      as (Hst & Hsym & Hty & Hs & Ht & Hm).
    destruct (entry_fill_outcome _ _ _ Hacc)
      as [(t1 & t2 & out & E1 & E2 & Hrun) | (s1 & out & tag & Hrun & Habs)].
    + rewrite Hrun. cbn [fst snd bracket_absent is_None
                           stop_loss_order_ticket andb].
      rewrite (unrelated_fill_ignored h ev (FillPrice ev) t1 t2 Hst).
      * split; [reflexivity | split; [intros _; reflexivity | discriminate]].
      * eapply Hfresh. left. exact E1.
      * eapply Hfresh. right. exact E2.
    + rewrite Hrun. cbn [fst snd]. rewrite Habs.
      destruct (bracket_absent_inv _ Habs) as [Hs1 Ht1].
      rewrite (OnOrderEvent_entry_fill h ev s1 Hst Hsym Hty Hs1 Ht1 Hm).
      rewrite <- (OnOrderEvent_entry_fill h ev s Hst Hsym Hty Hs Ht Hm), Hrun.
      cbn [fst snd].
      split; [reflexivity | split; [discriminate | intros _; split]];
        [reflexivity|].
      exists tag. apply in_or_app. right. now left.
  - split; [|split; [intros _ | discriminate]].
    + destruct (Status ev) eqn:Est;
        try (apply (not_filled_redelivery h ev s); rewrite Est; discriminate).
      destruct (filled_not_accepted h ev s Est Hacc)
        as [Hrun | (Hrun & t & Ht & Hid)].
      * rewrite Hrun. cbn [fst]. now rewrite Hrun.
      * rewrite Hrun.
        rewrite (bracket_fill_after_reset h ev Initialize Est);
          [reflexivity | | reflexivity | reflexivity].
        rewrite Hid. apply Htracked. exact Ht.
    + destruct (Status ev) eqn:Est;
        try (apply (not_filled_redelivery h ev s); rewrite Est; discriminate).
      destruct (filled_not_accepted h ev s Est Hacc)
        as [Hrun | (Hrun & t & Ht & Hid)].
      * rewrite Hrun. cbn [fst]. now rewrite Hrun.
      * rewrite Hrun.
        rewrite (bracket_fill_after_reset h ev Initialize Est);
          [reflexivity | | reflexivity | reflexivity].
        rewrite Hid. apply Htracked. exact Ht.
Qed.

(** The stop of a tracked bracket fills and is then delivered again. *)
Lemma redelivery_of_order_event_witness :
  second_delivery_is_noop host_later (filled 7 (97 # 1) (-10))
    (bracketed (100 # 1) 7 8).
Proof.
  destruct (redelivery_of_order_event host_later (filled 7 (97 # 1) (-10))
              (bracketed (100 # 1) 7 8)) as [H1 [H2 _]].
  - intros t [H | H]; inversion H; subst t; cbn; discriminate.
  - intros q p t [H | H]; inversion H; subst t; cbn; lia.
  - split; [exact H1 | apply H2; reflexivity].
Defined.

(** C8, counterexample.  The entry of 10 shares fills at 50; the gateway
    accepts the stop and refuses the limit, so the handler liquidates and
    resets.  Delivered again while the portfolio still shows the position,
    the same event submits a second stop and limit order and requests
    liquidation again. *)
Lemma redelivery_counterexample :
  requests (snd (run (OnOrderEvent host_stop_only (filled 1 (50 # 1) 10))
                     (fst (run (OnOrderEvent host_stop_only (filled 1 (50 # 1) 10))
                               Initialize))))
  = [AStopMarketOrder (-10) ((50 # 1) - (3 # 2) * (2 # 1))%Q "ATR SL";
     ALimitOrder (-10) ((50 # 1) + (3 # 1) * (2 # 1))%Q "ATR PT";
     ALiquidate "SL/PT Creation Failed"]
  /\ ~ second_delivery_is_noop host_stop_only (filled 1 (50 # 1) 10) Initialize.
Proof.
  split; [reflexivity|].
  intros [_ H]. discriminate H.
Qed.

(** ** Evaluation ticks *)

Lemma tick_evaluated_inv (h : Host) :
  tick_evaluated h = true ->
  IsWarmingUp h = false /\ rsi_IsReady h = true
  /\ atr_IsReady h = true /\ kr_IsReady h = true.
Proof.
  unfold tick_evaluated. intros H.
  apply andb_prop in H as [H Hkr].
  apply andb_prop in H as [H Hatr].
  apply andb_prop in H as [Hwarm Hrsi].
  apply negb_true_iff in Hwarm. auto.
Qed.

(** Below the oversold level the RSI is not above the exit level, and above
    the overbought level it is not below it. *)
Lemma oversold_is_not_exit (x : Q) :
  Qlt_bool x rsi_oversold = true -> Qlt_bool rsi_exit_level x = false.
Proof.
  intros H. apply Qlt_bool_iff in H.
  destruct (Qlt_bool rsi_exit_level x) eqn:E; [|reflexivity].
  apply Qlt_bool_iff in E. exfalso.
  apply (Qlt_irrefl x). apply (Qlt_trans _ rsi_oversold); [exact H|].
  apply (Qlt_trans _ rsi_exit_level); [reflexivity | exact E].
Qed.

Lemma overbought_is_not_exit (x : Q) :
  Qlt_bool rsi_overbought x = true -> Qlt_bool x rsi_exit_level = false.
Proof.
  intros H. apply Qlt_bool_iff in H.
  destruct (Qlt_bool x rsi_exit_level) eqn:E; [|reflexivity].
  apply Qlt_bool_iff in E. exfalso.
  apply (Qlt_irrefl x). apply (Qlt_trans _ rsi_exit_level); [exact E|].
  apply (Qlt_trans _ rsi_overbought); [reflexivity | exact H].
Qed.

Lemma long_is_not_short (h : Host) : IsLong h = true -> IsShort h = false.
Proof.
  unfold IsLong, IsShort. intros H. apply Z.ltb_lt in H. apply Z.ltb_ge. lia.
Qed.

Lemma short_is_not_long (h : Host) : IsShort h = true -> IsLong h = false.
Proof.
  unfold IsLong, IsShort. intros H. apply Z.ltb_lt in H. apply Z.ltb_ge. lia.
Qed.

(** An evaluated tick while invested: nothing happens unless the exit
    condition holds, and then no entry order is among the actions. *)
Lemma OnData_invested (h : Host) (bar : TradeBar) (s : Algo) :
  tick_evaluated h = true -> Invested h = true ->
  (exit_signal h = false -> run (OnData h (Some bar)) s = (s, []))
  /\ filter is_entry_submission (snd (run (OnData h (Some bar)) s)) = [].
Proof.
  intros Htick Hinv.
  destruct (tick_evaluated_inv _ Htick) as (Hwarm & Hrsi & Hatr & Hkr).
  unfold OnData, exit_signal. rewrite Hwarm, Hrsi, Hatr, Hkr, Hinv.
  cbn [negb orb].
  destruct s as [ep st tg].
  destruct (IsLong h && Qlt_bool rsi_exit_level (rsi_Value h));
    [|destruct (IsShort h && Qlt_bool (rsi_Value h) rsi_exit_level)];
    cbn [orb]; (split; [try discriminate; reflexivity|]);
    try reflexivity;
    unfold CancelStopLossAndProfitTarget;
    destruct st as [t1|], tg as [t2|]; exec;
    try destruct (IsActive h t1); try destruct (IsActive h t2); reflexivity.
Qed.

(** C5, as amended.  On an evaluated tick with the portfolio invested
    (OPEN_UNBRACKETED or OPEN_BRACKETED) no entry order is submitted, and an
    entry condition in the direction of the open position causes no action
    and no change of the tracking fields.  With the portfolio not invested
    the handler has no record of a pending entry: whatever the tracking
    fields, an entry condition with a non-zero sized quantity submits a
    market order. *)
Theorem entry_signal_handling (h : Host) (bar : TradeBar) (s : Algo) :
  tick_evaluated h = true ->
  (Invested h = true ->
     filter is_entry_submission (snd (run (OnData h (Some bar)) s)) = []
     /\ ((IsLong h = true /\ long_signal h bar = true)
         \/ (IsShort h = true /\ short_signal h bar = true) ->
         run (OnData h (Some bar)) s = (s, [])))
  /\ (Invested h = false -> long_signal h bar = true ->
      CalculateOrderQuantity h portfolio_allocation <> 0 ->
      run (OnData h (Some bar)) s =
      (s, [ALog "ENTRY SIGNAL: Long.";
           AMarketOrder (CalculateOrderQuantity h portfolio_allocation)]))
  /\ (Invested h = false -> long_signal h bar = false ->
      short_signal h bar = true ->
      CalculateOrderQuantity h (- portfolio_allocation)%Q <> 0 ->
      run (OnData h (Some bar)) s =
      (s, [ALog "ENTRY SIGNAL: Short.";
           AMarketOrder (CalculateOrderQuantity h (- portfolio_allocation)%Q)])).
Proof.
  intros Htick.
  destruct (tick_evaluated_inv _ Htick) as (Hwarm & Hrsi & Hatr & Hkr).
  split; [|split].
  - intros Hinv.
    destruct (OnData_invested h bar s Htick Hinv) as [Hquiet Hnone].
    split; [exact Hnone|].
    intros Hsame. apply Hquiet. unfold exit_signal.
    destruct Hsame as [[Hl Hsig] | [Hsh Hsig]].
    + unfold long_signal in Hsig. apply andb_prop in Hsig as [Hsig _].
      rewrite (oversold_is_not_exit _ Hsig), (long_is_not_short _ Hl), Hl.
      reflexivity.
    + unfold short_signal in Hsig. apply andb_prop in Hsig as [Hsig _].
      rewrite (overbought_is_not_exit _ Hsig), (short_is_not_long _ Hsh), Hsh.
      reflexivity.
  - intros Hinv Hsig Hq. unfold long_signal in Hsig.
    unfold OnData. rewrite Hwarm, Hrsi, Hatr, Hkr, Hinv, Hsig.
    apply Z.eqb_neq in Hq. rewrite Hq. reflexivity.
  - intros Hinv Hlong Hsig Hq. unfold long_signal in Hlong.
    unfold short_signal in Hsig.
    unfold OnData. rewrite Hwarm, Hrsi, Hatr, Hkr, Hinv, Hlong, Hsig.
    apply Z.eqb_neq in Hq. rewrite Hq. reflexivity.
Qed.

(** A long of 10 shares with the long condition still met, and the same tick
    with a flat portfolio. *)
Lemma entry_signal_handling_witness :
  run (OnData host_long (Some bar_400)) Initialize = (Initialize, [])
  /\ run (OnData host_flat (Some bar_400)) Initialize =
     (Initialize, [ALog "ENTRY SIGNAL: Long."; AMarketOrder 10]).
Proof.
  destruct (entry_signal_handling host_long bar_400 Initialize eq_refl)
    as [H1 _].
  destruct (entry_signal_handling host_flat bar_400 Initialize eq_refl)
    as [_ [H2 _]].
  split.
  - apply H1; [reflexivity | left; split; reflexivity].
  - apply H2; [reflexivity | reflexivity | cbn; discriminate].
Defined.

(** C5, counterexample.  Flat, long condition met: the first tick submits
    the entry.  The order is pending and the portfolio still not invested
    when the next tick is evaluated, and a second entry is submitted. *)
Lemma pending_entry_counterexample :
  requests (snd (run (OnData host_flat (Some bar_400)) Initialize))
  = [AMarketOrder 10]
  /\ Invested host_flat = false
  /\ requests (snd (run (OnData host_flat (Some bar_400))
                        (fst (run (OnData host_flat (Some bar_400)) Initialize))))
     = [AMarketOrder 10]
  /\ ~ tick_is_ignored host_flat (Some bar_400)
         (fst (run (OnData host_flat (Some bar_400)) Initialize)).
Proof.
  repeat split; try reflexivity.
  intros [_ H]. discriminate H.
Qed.

(** ** Reset of the tracking fields *)

(** The paths that do call [ResetTradeTracking]: the fill of a tracked leg,
    the RSI exit ([OnData_exit]), a refused bracket submission
    ([entry_fill_places_brackets]) and a failed entry order. *)
Lemma leg_fill_resets (h : Host) (ev : OrderEvent) (s : Algo) :
  Status ev = Filled ->
  bracket_absent s = false ->
  ticket_matches (stop_loss_order_ticket s) (OrderId ev)
  || ticket_matches (profit_target_order_ticket s) (OrderId ev) = true ->
  fst (run (OnOrderEvent h ev) s) = Initialize.
Proof.
  intros Hst Habs Hmatch.
  assert (Hacc : entry_fill_accepted h ev s = false).
  { unfold entry_fill_accepted. rewrite Habs.
    now rewrite andb_false_r. }
  destruct (filled_not_accepted h ev s Hst Hacc) as [Hrun | [Hrun _]];
    [|exact Hrun].
  exfalso. revert Hrun Hmatch Habs.
  destruct s as [ep st tg]. unfold OnOrderEvent.
  rewrite run_bind_self, Hst.
  cbn [stop_loss_order_ticket profit_target_order_ticket OrderStatus_eqb].
  unfold bracket_absent.
  cbn [stop_loss_order_ticket profit_target_order_ticket].
  destruct st as [[i1]|], tg as [[i2]|]; cbn [is_None ticket_matches TicketOrderId];
    rewrite ?andb_false_r, ?andb_true_r; cbn [andb orb];
    try discriminate;
    exec;
    try destruct (OrderId ev =? i1); try destruct (OrderId ev =? i2);
    cbn [orb]; intros H1 H2 H3; try discriminate H1; try discriminate H2;
    try discriminate H3.
Qed.

Lemma entry_failure_resets (h : Host) (ev : OrderEvent) (s : Algo) :
  Status ev = Invalid \/ Status ev = CancelPending \/ Status ev = Error ->
  Type_ (GetOrderById h (OrderId ev)) = Market ->
  Invested h = false ->
  fst (run (OnOrderEvent h ev) s) = Initialize.
Proof.
  intros Hst Hty Hinv. unfold OnOrderEvent.
  destruct Hst as [-> | [-> | ->]]; rewrite Hty, Hinv; reflexivity.
Qed.

(** C2, at the failing input.  The entry of 10 shares fills at 50 while the
    ATR is not ready (or is ready with the value 0): the handler stores the
    fill price, requests liquidation and returns without resetting, so the
    tracked entry price is 50 when the position goes flat.  The sibling
    path for a refused bracket submission does reset it. *)
Theorem sizing_failure_keeps_entry_price :
  run (OnOrderEvent host_no_atr (filled 1 (50 # 1) 10)) Initialize
  = ({| entry_price := 50 # 1;
        stop_loss_order_ticket := None;
        profit_target_order_ticket := None |},
     [ALog "ENTRY FILL";
      ALog "WARNING: ATR not ready at time of fill. Cannot place SL/PT.";
      ALiquidate "ATR Not Ready on Fill"])
  /\ run (OnOrderEvent (with_atr true 0%Q host_long) (filled 1 (50 # 1) 10))
         Initialize
     = ({| entry_price := 50 # 1;
           stop_loss_order_ticket := None;
           profit_target_order_ticket := None |},
        [ALog "ENTRY FILL";
         ALog "WARNING: ATR is zero or negative, cannot place SL/PT.";
         ALiquidate "Invalid ATR for SL/PT"])
  /\ ~ (entry_price
          (fst (run (OnOrderEvent host_no_atr (filled 1 (50 # 1) 10)) Initialize))
        == 0)%Q
  /\ fst (run (OnOrderEvent host_stop_only (filled 1 (50 # 1) 10)) Initialize)
     = Initialize.
Proof.
  repeat split. intros H. discriminate H.
Qed.



(** What does hold of a partial bracket failure: liquidation is requested
    and both references end up absent, whichever submission was refused. *)
Lemma partial_bracket_failure_resets (h : Host) (ev : OrderEvent) (s : Algo) :
  entry_fill_accepted h ev s = true ->
  atr_IsReady h = true -> (0 < atr_Value h)%Q ->
  bracket_present (fst (run (OnOrderEvent h ev) s)) = false ->
  fst (run (OnOrderEvent h ev) s) = Initialize
  /\ In (ALiquidate "SL/PT Creation Failed") (snd (run (OnOrderEvent h ev) s)).
Proof.
  intros Hacc Hready Hpos.
  destruct (entry_fill_accepted_inv _ _ _ Hacc)
    as (Hst & Hsym & Hty & Hs & Ht & Hm).
  rewrite (entry_fill_places_brackets h ev s Hst Hsym Hty Hs Ht Hm Hready Hpos).
  destruct (StopMarketOrder h _ _); [destruct (LimitOrder h _ _)|];
    cbn [fst snd]; intros H; try discriminate H;
    (split; [reflexivity | apply in_or_app; right; right; now left]).
Qed.

(** ** Further properties of the handlers *)

(** X1. [OnData] does nothing at all during warm-up, without a bar for the
    instrument in the slice, or while any of the three indicators is not
    ready. *)
Theorem OnData_gated (h : Host) (data : option TradeBar) (s : Algo) :
  IsWarmingUp h = true \/ data = None
  \/ rsi_IsReady h = false \/ atr_IsReady h = false \/ kr_IsReady h = false ->
  run (OnData h data) s = (s, []).
Proof.
  intros Hgate. unfold OnData.
  destruct (IsWarmingUp h); [reflexivity|].
  destruct data as [bar|]; [|reflexivity].
  destruct Hgate as [H | [H | [H | [H | H]]]]; try discriminate H;
    rewrite H; cbn [negb orb]; rewrite ?orb_true_r; reflexivity.
Qed.

Lemma OnData_gated_witness :
  run (OnData (with_atr false (2 # 1) (with_rsi (60 # 1) host_long))
              (Some bar_400)) (bracketed (100 # 1) 7 8)
  = (bracketed (100 # 1) 7 8, []).
Proof.
  apply OnData_gated. right. right. right. left. reflexivity.
Defined.

(** X2. While the portfolio is not invested [OnData] never touches the
    tracking fields.  On an evaluated tick its requests are decided by the
    two entry conditions, which exclude one another: on the long condition
    (RSI below 30, close below the regression value) one market order for the
    quantity sized for the share 0.95, on the short condition (RSI above 70,
    close above the regression value) one for the quantity sized for -0.95,
    in either case nothing when that quantity is 0, and nothing when neither
    condition holds. *)
Theorem OnData_not_invested (h : Host) (bar : TradeBar) (s : Algo) :
  Invested h = false ->
  tick_evaluated h = true ->
  let long_q := CalculateOrderQuantity h portfolio_allocation in
  let short_q := CalculateOrderQuantity h (- portfolio_allocation)%Q in
  let long_cond :=
    (rsi_Value h < rsi_oversold)%Q /\ (Close bar < kr_Value h)%Q in
  let short_cond :=
    (rsi_overbought < rsi_Value h)%Q /\ (kr_Value h < Close bar)%Q in
  let out := snd (run (OnData h (Some bar)) s) in
  fst (run (OnData h (Some bar)) s) = s
  /\ ~ (long_cond /\ short_cond)
  /\ (long_cond ->
      requests out = if long_q =? 0 then [] else [AMarketOrder long_q])
  /\ (short_cond ->
      requests out = if short_q =? 0 then [] else [AMarketOrder short_q])
  /\ (~ long_cond -> ~ short_cond -> requests out = []).
Proof.
  intros Hinv Htick. cbv zeta.
  destruct (tick_evaluated_inv _ Htick) as (Hwarm & Hrsi & Hatr & Hkr).
  assert (Hexcl : ~ (((rsi_Value h < rsi_oversold)%Q
                      /\ (Close bar < kr_Value h)%Q)
                     /\ ((rsi_overbought < rsi_Value h)%Q
                         /\ (kr_Value h < Close bar)%Q))).
  { intros [[H1 H2] [H3 H4]]. apply (Qlt_irrefl (Close bar)).
    apply (Qlt_trans _ (kr_Value h)); assumption. }
  assert (Hlong : Qlt_bool (rsi_Value h) rsi_oversold
                  && Qlt_bool (Close bar) (kr_Value h) = true
                  <-> (rsi_Value h < rsi_oversold)%Q
                      /\ (Close bar < kr_Value h)%Q).
  { rewrite andb_true_iff, !Qlt_bool_iff. tauto. }
  assert (Hshort : Qlt_bool rsi_overbought (rsi_Value h)
                   && Qlt_bool (kr_Value h) (Close bar) = true
                   <-> (rsi_overbought < rsi_Value h)%Q
                       /\ (kr_Value h < Close bar)%Q).
  { rewrite andb_true_iff, !Qlt_bool_iff. tauto. }
  unfold OnData. rewrite Hwarm, Hrsi, Hatr, Hkr, Hinv. cbn [negb orb].
  destruct (Qlt_bool (rsi_Value h) rsi_oversold
            && Qlt_bool (Close bar) (kr_Value h)) eqn:EL.
  - assert (HL : (rsi_Value h < rsi_oversold)%Q /\ (Close bar < kr_Value h)%Q)
      by (apply Hlong; reflexivity).
    destruct (CalculateOrderQuantity h portfolio_allocation =? 0) eqn:E;
      cbn [negb];
      (split; [reflexivity|]); (split; [exact Hexcl|]);
      (split; [intros _; reflexivity|]);
      (split; [intros HS; exfalso; apply Hexcl; split; assumption
              | intros HnL; contradiction]).
  - assert (HnL : ~ ((rsi_Value h < rsi_oversold)%Q
                     /\ (Close bar < kr_Value h)%Q))
      by (intros H; apply Hlong in H; discriminate H).
    destruct (Qlt_bool rsi_overbought (rsi_Value h)
              && Qlt_bool (kr_Value h) (Close bar)) eqn:ES.
    + assert (HS : (rsi_overbought < rsi_Value h)%Q
                   /\ (kr_Value h < Close bar)%Q)
        by (apply Hshort; reflexivity).
      destruct (CalculateOrderQuantity h (- portfolio_allocation)%Q =? 0) eqn:E;
        cbn [negb];
        (split; [reflexivity|]); (split; [exact Hexcl|]);
        (split; [intros HL; contradiction|]);
        (split; [intros _; reflexivity | intros _ HnS; contradiction]).
    + assert (HnS : ~ ((rsi_overbought < rsi_Value h)%Q
                       /\ (kr_Value h < Close bar)%Q))
        by (intros H; apply Hshort in H; discriminate H).
      split; [reflexivity|]. split; [exact Hexcl|].
      split; [intros HL; contradiction|].
      split; [intros HS; contradiction | intros _ _; reflexivity].
Qed.

(** Flat, RSI 75 and the close above the regression value: a short entry for
    the quantity sized for -0.95. *)
Lemma OnData_not_invested_witness :
  fst (run (OnData (with_rsi (75 # 1) host_flat) (Some {| Close := 420 # 1 |}))
           Initialize) = Initialize
  /\ requests
       (snd (run (OnData (with_rsi (75 # 1) host_flat)
                         (Some {| Close := 420 # 1 |})) Initialize))
     = [AMarketOrder (-10)].
Proof.
  destruct (OnData_not_invested (with_rsi (75 # 1) host_flat)
              {| Close := 420 # 1 |} Initialize eq_refl eq_refl)
    as (H1 & _ & _ & H4 & _).
  split; [exact H1|].
  apply H4. split; vm_compute; reflexivity.
Defined.

(** X3. [CancelStopLossAndProfitTarget], from any state: it cancels exactly
    the tracked tickets that are still active, the stop before the target,
    and always ends with the tracking fields reset. *)
Theorem CancelStopLossAndProfitTarget_effect (h : Host) (s : Algo) :
  let cancel_active (t : option OrderTicket) :=
    match t with
    | Some k =>
        if IsActive h k then [ACancel k "Position Closed Manually"] else []
    | None => []
    end in
  fst (run (CancelStopLossAndProfitTarget h) s) = Initialize
  /\ requests (snd (run (CancelStopLossAndProfitTarget h) s)) =
     cancel_active (stop_loss_order_ticket s)
     ++ cancel_active (profit_target_order_ticket s).
Proof.
  cbv zeta. destruct s as [ep st tg]. unfold CancelStopLossAndProfitTarget.
  destruct st as [t1|], tg as [t2|]; exec;
    try destruct (IsActive h t1); try destruct (IsActive h t2);
    split; reflexivity.
Qed.

(** X4. A Canceled event never asks anything of the gateway.  While the
    portfolio is invested it clears exactly the references whose order id is
    the event's and leaves the entry price and the other reference alone;
    when the portfolio is flat it resets every tracking field, whichever
    order was cancelled. *)
Theorem canceled_event_effect (h : Host) (ev : OrderEvent) (s : Algo) :
  Status ev = Canceled ->
  let keep (t : option OrderTicket) :=
    if ticket_matches t (OrderId ev) then None else t in
  requests (snd (run (OnOrderEvent h ev) s)) = []
  /\ (Invested h = true ->
      fst (run (OnOrderEvent h ev) s) =
      {| entry_price := entry_price s;
         stop_loss_order_ticket := keep (stop_loss_order_ticket s);
         profit_target_order_ticket := keep (profit_target_order_ticket s) |})
  /\ (Invested h = false -> fst (run (OnOrderEvent h ev) s) = Initialize).
Proof.
  intros Hst. cbv zeta. destruct s as [ep st tg].
  unfold OnOrderEvent. rewrite Hst.
  destruct st as [[i1]|], tg as [[i2]|]; exec;
    try destruct (OrderId ev =? i1); try destruct (OrderId ev =? i2);
    destruct (Invested h); repeat split; intros; congruence.
Qed.

(** The target of a tracked bracket is cancelled while the long is open. *)
Lemma canceled_event_effect_witness :
  run (OnOrderEvent host_long (order_event 8 Canceled)) (bracketed (100 # 1) 7 8)
  = ({| entry_price := 100 # 1;
        stop_loss_order_ticket := Some {| TicketOrderId := 7 |};
        profit_target_order_ticket := None |},
     [ALog "Profit Target Order Canceled"]).
Proof.
  destruct (canceled_event_effect host_long (order_event 8 Canceled)
              (bracketed (100 # 1) 7 8) eq_refl) as [_ [H _]].
  specialize (H eq_refl).
  apply injective_projections; [exact H | reflexivity].
Defined.

(** X5. An Invalid, CancelPending or Error event asks nothing of the
    gateway; it resets the tracking fields when the order is a market order
    and the portfolio is flat, and in every other case changes nothing. *)
Theorem failed_order_event_effect (h : Host) (ev : OrderEvent) (s : Algo) :
  Status ev = Invalid \/ Status ev = CancelPending \/ Status ev = Error ->
  run (OnOrderEvent h ev) s =
  (if OrderType_eqb (Type_ (GetOrderById h (OrderId ev))) Market
      && negb (Invested h)
   then Initialize else s,
   [ALog "ORDER EVENT"]).
Proof.
  intros Hst. destruct s as [ep st tg]. unfold OnOrderEvent.
  destruct Hst as [-> | [-> | ->]]; exec;
    destruct (Type_ _); try reflexivity;
    destruct (Invested h); reflexivity.
Qed.

(** A rejected stop order while the long is open leaves the bracket
    tracked; a rejected entry while flat resets. *)
Lemma failed_order_event_effect_witness :
  run (OnOrderEvent host_flat (order_event 7 Invalid)) (bracketed (100 # 1) 7 8)
  = (bracketed (100 # 1) 7 8, [ALog "ORDER EVENT"])
  /\ run (OnOrderEvent host_flat (order_event 1 Error)) (bracketed (100 # 1) 7 8)
     = (Initialize, [ALog "ORDER EVENT"]).
Proof.
  split.
  - apply (failed_order_event_effect host_flat (order_event 7 Invalid)).
    left. reflexivity.
  - apply (failed_order_event_effect host_flat (order_event 1 Error)).
    right. right. reflexivity.
Defined.

(** X6. Only a Filled event can make [OnOrderEvent] ask anything of the
    gateway, and an event with any status the handler has no branch for (a
    partial fill, a submission or update acknowledgement) changes nothing and
    logs nothing: brackets are never placed on a partial fill. *)
Theorem requests_only_on_fill (h : Host) (ev : OrderEvent) (s : Algo) :
  Status ev <> Filled ->
  requests (snd (run (OnOrderEvent h ev) s)) = []
  /\ (unhandled_status (Status ev) = true ->
      run (OnOrderEvent h ev) s = (s, [])).
Proof.
  intros Hst. destruct s as [ep st tg]. unfold OnOrderEvent.
  destruct (Status ev); try contradiction; cbn [unhandled_status];
    try (split; [reflexivity | intros _; reflexivity]);
    (split; [|discriminate]).
  - destruct st as [[i1]|], tg as [[i2]|]; exec;
      try destruct (OrderId ev =? i1); try destruct (OrderId ev =? i2);
      destruct (Invested h); reflexivity.
  - exec. destruct (Type_ _); try reflexivity; destruct (Invested h); reflexivity.
  - exec. destruct (Type_ _); try reflexivity; destruct (Invested h); reflexivity.
  - exec. destruct (Type_ _); try reflexivity; destruct (Invested h); reflexivity.
Qed.

(** A partial fill of the entry order, position already long. *)
Lemma requests_only_on_fill_witness :
  run (OnOrderEvent host_long
         {| OrderId := 1; Status := PartiallyFilled;
            FillPrice := 100 # 1; FillQuantity := 4 |}) Initialize
  = (Initialize, []).
Proof.
  apply requests_only_on_fill; [discriminate | reflexivity].
Defined.

(** A Filled event that is not accepted as an entry fill, with its actions:
    nothing, or the reset after a leg fill with at most one cancellation, of
    a tracked ticket. *)
Lemma filled_not_accepted_actions (h : Host) (ev : OrderEvent) (s : Algo) :
  Status ev = Filled ->
  entry_fill_accepted h ev s = false ->
  run (OnOrderEvent h ev) s = (s, [])
  \/ exists m cancels,
       run (OnOrderEvent h ev) s = (Initialize, ALog m :: cancels)
       /\ (cancels = []
           \/ exists t r, cancels = [ACancel t r] /\ tracked s t).
Proof.
  intros Hst Hacc. unfold entry_fill_accepted, direction_matches in Hacc.
  rewrite Hst in Hacc. cbn [OrderStatus_eqb andb] in Hacc.
  destruct s as [ep st tg]. unfold OnOrderEvent. rewrite run_bind_self, Hst.
  unfold bracket_absent in Hacc. unfold tracked.
  cbn [stop_loss_order_ticket profit_target_order_ticket OrderStatus_eqb]
    in Hacc |- *.
  destruct st as [[i1]|], tg as [[i2]|]; cbn [is_None] in Hacc |- *;
    rewrite ?andb_false_r, ?andb_true_r in Hacc |- *; cbn [andb] in Hacc |- *.
  - exec. destruct (OrderId ev =? i1).
    + right. eexists. eexists. split; [reflexivity|].
      right. eexists. eexists. split; [reflexivity | now right].
    + destruct (OrderId ev =? i2).
      * right. eexists. eexists. split; [reflexivity|].
        right. eexists. eexists. split; [reflexivity | now left].
      * now left.
  - exec. destruct (OrderId ev =? i1).
    + right. eexists. eexists. split; [reflexivity | now left].
    + now left.
  - exec. destruct (OrderId ev =? i2).
    + right. eexists. eexists. split; [reflexivity | now left].
    + now left.
  - left.
    destruct (String.eqb _ _ && OrderType_eqb _ _) eqn:G;
      cbn [andb] in Hacc |- *.
    + rewrite Hacc. reflexivity.
    + reflexivity.
Qed.

(** Every run of [OnOrderEvent] has one of four shapes. *)
Lemma OnOrderEvent_shape (h : Host) (ev : OrderEvent) (s : Algo) :
  let s' := fst (run (OnOrderEvent h ev) s) in
  let out := snd (run (OnOrderEvent h ev) s) in
  (* housekeeping: no request, references kept or cleared *)
  (requests out = []
   /\ (stop_loss_order_ticket s' = stop_loss_order_ticket s
       \/ stop_loss_order_ticket s' = None)
   /\ (profit_target_order_ticket s' = profit_target_order_ticket s
       \/ profit_target_order_ticket s' = None)
   /\ (Status ev <> Canceled -> bracket_whole s = true ->
       bracket_whole s' = true))
  (* bracket placed *)
  \/ (entry_fill_accepted h ev s = true
      /\ atr_IsReady h = true /\ (0 < atr_Value h)%Q
      /\ bracket_present s' = true
      /\ exists q sp tp,
           requests out =
           [AStopMarketOrder q sp "ATR SL"; ALimitOrder q tp "ATR PT"])
  (* entry given up *)
  \/ (entry_fill_accepted h ev s = true
      /\ bracket_absent s' = true
      /\ exists pre tag,
           requests out = pre ++ [ALiquidate tag]
           /\ (pre = []
               \/ exists q sp tp,
                    pre = [AStopMarketOrder q sp "ATR SL";
                           ALimitOrder q tp "ATR PT"]))
  (* leg filled *)
  \/ (Status ev = Filled
      /\ s' = Initialize
      /\ (requests out = []
          \/ exists t r, requests out = [ACancel t r] /\ tracked s t)).
Proof.
  cbv zeta.
  destruct (entry_fill_accepted h ev s) eqn:Hacc.
  - destruct (entry_fill_accepted_inv _ _ _ Hacc)
      as (Hst & Hsym & Hty & Hs & Ht & Hm).
    destruct (atr_IsReady h) eqn:Hready;
      [destruct (Qlt_le_dec 0 (atr_Value h)) as [Hpos | Hneg]|].
    + rewrite (entry_fill_places_brackets h ev s Hst Hsym Hty Hs Ht Hm Hready Hpos).
      destruct (StopMarketOrder h _ _) as [t1|];
        [destruct (LimitOrder h _ _) as [t2|]|].
      * right. left. repeat split; auto.
        eexists. eexists. eexists. reflexivity.
      * right. right. left. repeat split.
        eexists [AStopMarketOrder _ _ "ATR SL"; ALimitOrder _ _ "ATR PT"], _.
        split; [reflexivity|].
        right. eexists. eexists. eexists. reflexivity.
      * right. right. left. repeat split.
        eexists [AStopMarketOrder _ _ "ATR SL"; ALimitOrder _ _ "ATR PT"], _.
        split; [reflexivity|].
        right. eexists. eexists. eexists. reflexivity.
    + destruct (entry_fill_sizing_failure h ev s Hst Hsym Hty Hs Ht Hm
                  (or_intror Hneg)) as (logs & tag & Hrun & Hlogs).
      rewrite Hrun. right. right. left. repeat split.
      exists [], tag. split; [|now left].
      cbn [fst snd]. now rewrite requests_app, Hlogs.
    + destruct (entry_fill_sizing_failure h ev s Hst Hsym Hty Hs Ht Hm
                  (or_introl Hready)) as (logs & tag & Hrun & Hlogs).
      rewrite Hrun. right. right. left. repeat split.
      exists [], tag. split; [|now left].
      cbn [fst snd]. now rewrite requests_app, Hlogs.
  - destruct (Status ev) eqn:Est;
      try (left; destruct s as [ep st tg]; unfold OnOrderEvent; rewrite Est;
           destruct st as [[i1]|], tg as [[i2]|]; exec;
           try destruct (OrderId ev =? i1); try destruct (OrderId ev =? i2);
           try destruct (Type_ _); try destruct (Invested h);
           repeat split; auto; congruence).
    destruct (filled_not_accepted_actions h ev s Est Hacc)
      as [Hrun | (m & cancels & Hrun & Hc)]; rewrite Hrun; cbn [fst snd].
    + left. repeat split; auto.
    + right. right. right. repeat split.
      destruct Hc as [-> | (t & r & -> & Ht)]; [now left|].
      right. exists t, r. split; [reflexivity | exact Ht].
Qed.

(** Every run of [OnData] either leaves the tracking fields alone and
    submits at most one entry order, or is the RSI exit. *)
Lemma OnData_shape (h : Host) (data : option TradeBar) (s : Algo) :
  let cancel_active (t : option OrderTicket) :=
    match t with
    | Some k =>
        if IsActive h k then [ACancel k "Position Closed Manually"] else []
    | None => []
    end in
  let s' := fst (run (OnData h data) s) in
  let out := snd (run (OnData h data) s) in
  (s' = s
   /\ (requests out = []
       \/ exists q, q <> 0 /\ Invested h = false
                    /\ requests out = [AMarketOrder q]))
  \/ (Invested h = true /\ s' = Initialize
      /\ requests out =
         ALiquidate "RSI Exit"
         :: cancel_active (stop_loss_order_ticket s)
         ++ cancel_active (profit_target_order_ticket s)).
Proof.
  cbv zeta. unfold OnData.
  destruct (IsWarmingUp h); [left; split; [reflexivity | now left]|].
  destruct data as [bar|]; [|left; split; [reflexivity | now left]].
  destruct (negb (rsi_IsReady h) || negb (atr_IsReady h) || negb (kr_IsReady h));
    [left; split; [reflexivity | now left]|].
  destruct (Invested h) eqn:Hinv; cbn [negb].
  - assert (Hexit : forall m,
               fst (run (Log m ;; emit (ALiquidate "RSI Exit") ;;
                         CancelStopLossAndProfitTarget h) s) = Initialize
               /\ requests (snd (run (Log m ;; emit (ALiquidate "RSI Exit") ;;
                                      CancelStopLossAndProfitTarget h) s)) =
                  ALiquidate "RSI Exit"
                  :: match stop_loss_order_ticket s with
                     | Some k =>
                         if IsActive h k
                         then [ACancel k "Position Closed Manually"] else []
                     | None => []
                     end
                  ++ match profit_target_order_ticket s with
                     | Some k =>
                         if IsActive h k
                         then [ACancel k "Position Closed Manually"] else []
                     | None => []
                     end).
    { intros m. destruct s as [ep st tg]. unfold CancelStopLossAndProfitTarget.
      destruct st as [t1|], tg as [t2|]; exec;
        try destruct (IsActive h t1); try destruct (IsActive h t2);
        split; reflexivity. }
    destruct (IsLong h && Qlt_bool rsi_exit_level (rsi_Value h));
      [right; split; [reflexivity | apply Hexit]|].
    destruct (IsShort h && Qlt_bool (rsi_Value h) rsi_exit_level);
      [right; split; [reflexivity | apply Hexit]|].
    left. split; [reflexivity | now left].
  - destruct (Qlt_bool (rsi_Value h) rsi_oversold
              && Qlt_bool (Close bar) (kr_Value h)).
    + destruct (CalculateOrderQuantity h portfolio_allocation =? 0) eqn:E;
        cbn [negb]; (left; split; [reflexivity|]); [now left|].
      right. eexists. split; [apply Z.eqb_neq; exact E|].
      split; reflexivity.
    + destruct (Qlt_bool rsi_overbought (rsi_Value h)
                && Qlt_bool (kr_Value h) (Close bar));
        [|left; split; [reflexivity | now left]].
      destruct (CalculateOrderQuantity h (- portfolio_allocation)%Q =? 0) eqn:E;
        cbn [negb]; (left; split; [reflexivity|]); [now left|].
      right. eexists. split; [apply Z.eqb_neq; exact E|].
      split; reflexivity.
Qed.

Lemma in_requests (l : list Action) (x : Action) :
  In x l -> is_request x = true -> In x (requests l).
Proof. intros Hin Hx. apply filter_In. auto. Qed.

Lemma filter_requests (p : Action -> bool) (l : list Action) :
  (forall x, p x = true -> is_request x = true) ->
  filter p (requests l) = filter p l.
Proof.
  intros Hp. unfold requests. induction l as [|x l IH]; [reflexivity|].
  cbn [filter]. destruct (is_request x) eqn:Hx.
  - cbn [filter]. now rewrite IH.
  - destruct (p x) eqn:Hpx; [|exact IH].
    rewrite (Hp _ Hpx) in Hx. discriminate Hx.
Qed.

Lemma bracket_whole_of_present (s : Algo) :
  bracket_present s = true -> bracket_whole s = true.
Proof. unfold bracket_whole. now intros ->. Qed.

Lemma bracket_whole_of_absent (s : Algo) :
  bracket_absent s = true -> bracket_whole s = true.
Proof. unfold bracket_whole. intros ->. apply orb_true_r. Qed.

Lemma canceled_when_flat (h : Host) (ev : OrderEvent) (s : Algo) :
  Status ev = Canceled -> Invested h = false ->
  fst (run (OnOrderEvent h ev) s) = Initialize.
Proof.
  intros Hst Hinv. destruct s as [ep st tg].
  unfold OnOrderEvent. rewrite Hst, Hinv.
  destruct st as [[i1]|], tg as [[i2]|]; exec;
    try destruct (OrderId ev =? i1); try destruct (OrderId ev =? i2);
    reflexivity.
Qed.

(** X7. The bracket is never left half-tracked by anything but a
    cancellation reported while the position is open: from a state with both
    references set or both absent, [OnData] always, and [OnOrderEvent] for
    every event that is not Canceled or that arrives with the portfolio flat,
    end in such a state again, whatever the gateway answers. *)
Theorem bracket_whole_preserved
    (h : Host) (ev : OrderEvent) (data : option TradeBar) (s : Algo) :
  bracket_whole s = true ->
  (Status ev <> Canceled \/ Invested h = false ->
   bracket_whole (fst (run (OnOrderEvent h ev) s)) = true)
  /\ bracket_whole (fst (run (OnData h data) s)) = true.
Proof.
  intros Hw. split.
  - intros Hcase.
    assert (Hdec : Status ev = Canceled \/ Status ev <> Canceled)
      by (destruct (Status ev); (now left) || (right; discriminate)).
    destruct Hdec as [Hc | Hnc].
    + destruct Hcase as [Hcase | Hinv]; [contradiction|].
      now rewrite (canceled_when_flat h ev s Hc Hinv).
    + destruct (OnOrderEvent_shape h ev s)
        as [(_ & _ & _ & H) | [(_ & _ & _ & H & _) | [(_ & H & _) | (_ & H & _)]]].
      * apply H; assumption.
      * now apply bracket_whole_of_present.
      * now apply bracket_whole_of_absent.
      * now rewrite H.
  - destruct (OnData_shape h data s) as [[H _] | (_ & H & _)]; rewrite H;
      [exact Hw | reflexivity].
Qed.

(** A refused limit order after an entry fill, and the RSI exit of a
    bracketed long. *)
Lemma bracket_whole_preserved_witness :
  bracket_whole (fst (run (OnOrderEvent host_stop_only (filled 1 (50 # 1) 10))
                          Initialize)) = true
  /\ bracket_whole (fst (run (OnData (with_rsi (60 # 1) host_long) (Some bar_400))
                             (bracketed (100 # 1) 7 8))) = true.
Proof.
  destruct (bracket_whole_preserved host_stop_only (filled 1 (50 # 1) 10) None
              Initialize eq_refl) as [H1 _].
  destruct (bracket_whole_preserved (with_rsi (60 # 1) host_long)
              (filled 1 (50 # 1) 10) (Some bar_400) (bracketed (100 # 1) 7 8)
              eq_refl) as [_ H2].
  split; [apply H1; left; discriminate | exact H2].
Defined.

(** X8. A bracket comes into being only through an accepted entry fill with
    a ready, positive ATR: if no ticket is tracked before [OnOrderEvent] and
    some ticket is tracked after it, the event was a Filled event accepted as
    an entry fill, the ATR was ready and positive, and both tickets are
    tracked.  [OnData] never sets a reference. *)
Theorem bracket_only_from_entry_fill
    (h : Host) (ev : OrderEvent) (data : option TradeBar) (s : Algo) :
  bracket_absent s = true ->
  (bracket_absent (fst (run (OnOrderEvent h ev) s)) = false ->
   Status ev = Filled
   /\ entry_fill_accepted h ev s = true
   /\ atr_IsReady h = true /\ (0 < atr_Value h)%Q
   /\ bracket_present (fst (run (OnOrderEvent h ev) s)) = true)
  /\ bracket_absent (fst (run (OnData h data) s)) = true.
Proof.
  intros Habs. destruct (bracket_absent_inv _ Habs) as [Hs Ht]. split.
  - intros Hafter.
    destruct (OnOrderEvent_shape h ev s)
      as [(_ & H1 & H2 & _) | [(Hacc & Hr & Hp & Hb & _)
                              | [(_ & H & _) | (_ & H & _)]]].
    + exfalso. revert Hafter. unfold bracket_absent.
      rewrite Hs in H1. rewrite Ht in H2.
      destruct H1 as [-> | ->], H2 as [-> | ->]; discriminate.
    + repeat split; auto.
      now destruct (entry_fill_accepted_inv _ _ _ Hacc).
    + congruence.
    + rewrite H in Hafter. discriminate Hafter.
  - destruct (OnData_shape h data s) as [[H _] | (_ & H & _)]; rewrite H;
      [exact Habs | reflexivity].
Qed.

Lemma bracket_only_from_entry_fill_witness :
  entry_fill_accepted host_long (filled 1 (100 # 1) 10) Initialize = true
  /\ bracket_absent (fst (run (OnData host_flat (Some bar_400)) Initialize))
     = true.
Proof.
  destruct (bracket_only_from_entry_fill host_long (filled 1 (100 # 1) 10)
              (Some bar_400) Initialize eq_refl) as [H1 _].
  destruct (bracket_only_from_entry_fill host_flat (filled 1 (100 # 1) 10)
              (Some bar_400) Initialize eq_refl) as [_ H2].
  split; [apply H1; reflexivity | exact H2].
Defined.

(** X9. Whenever a handler requests liquidation, it returns with both ticket
    references absent: no run liquidates and keeps a bracket tracked. *)
Theorem liquidation_clears_bracket
    (h : Host) (ev : OrderEvent) (data : option TradeBar) (s : Algo)
    (tag : string) :
  (In (ALiquidate tag) (snd (run (OnOrderEvent h ev) s)) ->
   bracket_absent (fst (run (OnOrderEvent h ev) s)) = true)
  /\ (In (ALiquidate tag) (snd (run (OnData h data) s)) ->
      fst (run (OnData h data) s) = Initialize).
Proof.
  split; intros Hin; apply in_requests in Hin; try reflexivity.
  - destruct (OnOrderEvent_shape h ev s)
      as [(H & _) | [(_ & _ & _ & _ & q & sp & tp & H)
                    | [(_ & H & _) | (_ & _ & H)]]].
    + rewrite H in Hin. destruct Hin.
    + rewrite H in Hin. destruct Hin as [Hx | [Hx | []]]; discriminate Hx.
    + exact H.
    + destruct H as [H | (t & r & H & _)]; rewrite H in Hin.
      * destruct Hin.
      * destruct Hin as [Hx | []]. discriminate Hx.
  - destruct (OnData_shape h data s)
      as [[_ [H | (q & _ & _ & H)]] | (_ & H & _)].
    + rewrite H in Hin. destruct Hin.
    + rewrite H in Hin. destruct Hin as [Hx | []]. discriminate Hx.
    + exact H.
Qed.

Lemma liquidation_clears_bracket_witness :
  In (ALiquidate "SL/PT Creation Failed")
     (snd (run (OnOrderEvent host_stop_only (filled 1 (50 # 1) 10)) Initialize))
  /\ bracket_absent
       (fst (run (OnOrderEvent host_stop_only (filled 1 (50 # 1) 10)) Initialize))
     = true.
Proof.
  assert (Hin : In (ALiquidate "SL/PT Creation Failed")
                  (snd (run (OnOrderEvent host_stop_only (filled 1 (50 # 1) 10))
                            Initialize)))
    by (cbn; tauto).
  split; [exact Hin|].
  exact (proj1 (liquidation_clears_bracket host_stop_only (filled 1 (50 # 1) 10)
                  None Initialize "SL/PT Creation Failed") Hin).
Defined.

(** X10. A handler only ever cancels an order whose ticket it holds: every
    cancellation among the actions of [OnOrderEvent] or [OnData] names a
    ticket tracked on entry, and [OnData] cancels only active ones. *)
Theorem cancels_only_tracked
    (h : Host) (ev : OrderEvent) (data : option TradeBar) (s : Algo)
    (t : OrderTicket) (reason : string) :
  (In (ACancel t reason) (snd (run (OnOrderEvent h ev) s)) -> tracked s t)
  /\ (In (ACancel t reason) (snd (run (OnData h data) s)) ->
      tracked s t /\ IsActive h t = true).
Proof.
  split; intros Hin; apply in_requests in Hin; try reflexivity.
  - destruct (OnOrderEvent_shape h ev s)
      as [(H & _) | [(_ & _ & _ & _ & q & sp & tp & H)
                    | [(_ & _ & pre & tg & H & Hpre) | (_ & _ & H)]]].
    + rewrite H in Hin. destruct Hin.
    + rewrite H in Hin. destruct Hin as [Hx | [Hx | []]]; discriminate Hx.
    + rewrite H in Hin. apply in_app_or in Hin.
      destruct Hin as [Hin | [Hx | []]]; [|discriminate Hx].
      destruct Hpre as [-> | (q & sp & tp & ->)].
      * destruct Hin.
      * destruct Hin as [Hx | [Hx | []]]; discriminate Hx.
    + destruct H as [H | (t' & r & H & Ht)]; rewrite H in Hin.
      * destruct Hin.
      * destruct Hin as [Hx | []]. inversion Hx; subst. exact Ht.
  - destruct (OnData_shape h data s)
      as [[_ [H | (q & _ & _ & H)]] | (_ & _ & H)].
    + rewrite H in Hin. destruct Hin.
    + rewrite H in Hin. destruct Hin as [Hx | []]. discriminate Hx.
    + rewrite H in Hin. unfold tracked.
      destruct Hin as [Hx | Hin]; [discriminate Hx|].
      apply in_app_or in Hin.
      destruct Hin as [Hin | Hin].
      * destruct (stop_loss_order_ticket s) as [k|]; [|destruct Hin].
        destruct (IsActive h k) eqn:Hact; [|destruct Hin].
        destruct Hin as [Hx | []]. inversion Hx; subst. auto.
      * destruct (profit_target_order_ticket s) as [k|]; [|destruct Hin].
        destruct (IsActive h k) eqn:Hact; [|destruct Hin].
        destruct Hin as [Hx | []]. inversion Hx; subst. auto.
Qed.

Lemma cancels_only_tracked_witness :
  In (ACancel {| TicketOrderId := 8 |} "Stop Loss Hit")
     (snd (run (OnOrderEvent host_long (filled 7 (97 # 1) (-10)))
               (bracketed (100 # 1) 7 8)))
  /\ tracked (bracketed (100 # 1) 7 8) {| TicketOrderId := 8 |}.
Proof.
  assert (Hin : In (ACancel {| TicketOrderId := 8 |} "Stop Loss Hit")
                  (snd (run (OnOrderEvent host_long (filled 7 (97 # 1) (-10)))
                            (bracketed (100 # 1) 7 8))))
    by (cbn; tauto).
  split; [exact Hin|].
  exact (proj1 (cancels_only_tracked host_long (filled 7 (97 # 1) (-10)) None
                  (bracketed (100 # 1) 7 8) {| TicketOrderId := 8 |}
                  "Stop Loss Hit") Hin).
Defined.

(** X11. The two handlers keep to their own orders: [OnOrderEvent] never
    submits an entry (market) order, and [OnData] never submits a stop or
    limit order. *)
Theorem handlers_keep_to_their_orders
    (h : Host) (ev : OrderEvent) (data : option TradeBar) (s : Algo) :
  filter is_entry_submission (snd (run (OnOrderEvent h ev) s)) = []
  /\ filter is_bracket_submission (snd (run (OnData h data) s)) = [].
Proof.
  split.
  - rewrite <- filter_requests by (intros x; destruct x; cbn; congruence).
    destruct (OnOrderEvent_shape h ev s)
      as [(H & _) | [(_ & _ & _ & _ & q & sp & tp & H)
                    | [(_ & _ & pre & tg & H & Hpre) | (_ & _ & H)]]].
    + now rewrite H.
    + now rewrite H.
    + rewrite H, filter_app.
      destruct Hpre as [-> | (q & sp & tp & ->)]; reflexivity.
    + destruct H as [H | (t' & r & H & _)]; now rewrite H.
  - rewrite <- filter_requests by (intros x; destruct x; cbn; congruence).
    destruct (OnData_shape h data s)
      as [[_ [H | (q & _ & _ & H)]] | (_ & _ & H)]; rewrite H;
      try reflexivity.
    cbn [filter is_bracket_submission]. rewrite filter_app.
    destruct (stop_loss_order_ticket s) as [k1|],
             (profit_target_order_ticket s) as [k2|];
      try destruct (IsActive h k1); try destruct (IsActive h k2); reflexivity.
Qed.

(** X12. With a positive ATR the bracket is never on the wrong side of the
    fill price: after a Buy the stop is not above it and the target not below
    it, after a Sell the stop is not below it and the target not above it. *)
Theorem bracket_straddles_entry (h : Host) (ev : OrderEvent) (s : Algo) :
  Status ev = Filled ->
  Symbol (GetOrderById h (OrderId ev)) = spy_Symbol ->
  Type_ (GetOrderById h (OrderId ev)) = Market ->
  stop_loss_order_ticket s = None ->
  profit_target_order_ticket s = None ->
  position_matches h (Direction (GetOrderById h (OrderId ev))) ->
  atr_IsReady h = true -> (0 < atr_Value h)%Q ->
  exists q stop_price target_price,
    filter is_bracket_submission (snd (run (OnOrderEvent h ev) s)) =
    [AStopMarketOrder q stop_price "ATR SL";
     ALimitOrder q target_price "ATR PT"]
    /\ (Direction (GetOrderById h (OrderId ev)) = Buy ->
        (stop_price <= FillPrice ev)%Q /\ (FillPrice ev <= target_price)%Q)
    /\ (Direction (GetOrderById h (OrderId ev)) = Sell ->
        (target_price <= FillPrice ev)%Q /\ (FillPrice ev <= stop_price)%Q).
Proof.
  intros Hst Hsym Hty Hs Ht Hm Hready Hpos.
  pose proof (entry_fill_bracket_submissions h ev s Hst Hsym Hty Hs Ht Hm) as HB.
  cbv zeta in HB.
  rewrite Hready, (Qle_bool_false_of_pos _ Hpos) in HB. cbn [andb negb] in HB.
  eexists. eexists. eexists. split; [exact HB|].
  destruct (position_matches_dir _ _ Hm) as [Hd | Hd]; rewrite Hd;
    cbn [spec_stop_price spec_target_price];
    repeat split; intros; try discriminate; lra.
Qed.

(** A long entered at 100 with ATR 2: stop 97, target 106. *)
Lemma bracket_straddles_entry_witness :
  exists q stop_price target_price,
    filter is_bracket_submission
      (snd (run (OnOrderEvent host_long (filled 1 (100 # 1) 10)) Initialize)) =
    [AStopMarketOrder q stop_price "ATR SL";
     ALimitOrder q target_price "ATR PT"]
    /\ (stop_price <= 100 # 1)%Q /\ (100 # 1 <= target_price)%Q.
Proof.
  destruct (bracket_straddles_entry host_long (filled 1 (100 # 1) 10) Initialize)
    as (q & sp & tp & H & HB & _); try reflexivity.
  - left. split; [reflexivity | vm_compute; reflexivity].
  - exists q, sp, tp. split; [exact H | apply HB; reflexivity].
Defined.

(** X13. The tracked entry price is never read back.  Two states that hold
    the same tickets produce the same actions and the same tickets under
    every order event and every tick, whatever entry prices they carry; so
    the price left behind by a sizing failure changes nothing later. *)
Theorem entry_price_is_never_read
    (h : Host) (ev : OrderEvent) (data : option TradeBar) (s1 s2 : Algo) :
  same_tickets s1 s2 ->
  (snd (run (OnOrderEvent h ev) s1) = snd (run (OnOrderEvent h ev) s2)
   /\ same_tickets (fst (run (OnOrderEvent h ev) s1))
                   (fst (run (OnOrderEvent h ev) s2)))
  /\ (snd (run (OnData h data) s1) = snd (run (OnData h data) s2)
      /\ same_tickets (fst (run (OnData h data) s1))
                      (fst (run (OnData h data) s2))).
Proof.
  intros [Hs Ht].
  destruct s1 as [ep1 st tg], s2 as [ep2 st2 tg2]; cbn in Hs, Ht; subst st2 tg2.
  split.
  - destruct (entry_fill_accepted h ev
                {| entry_price := ep1; stop_loss_order_ticket := st;
                   profit_target_order_ticket := tg |}) eqn:Hacc.
    + destruct (entry_fill_accepted_inv _ _ _ Hacc)
        as (Hst & Hsym & Hty & Hs & Ht & Hm).
      cbn in Hs, Ht. subst st tg.
      rewrite (OnOrderEvent_entry_fill h ev
                 {| entry_price := ep1; stop_loss_order_ticket := None;
                    profit_target_order_ticket := None |}
                 Hst Hsym Hty eq_refl eq_refl Hm).
      rewrite (OnOrderEvent_entry_fill h ev
                 {| entry_price := ep2; stop_loss_order_ticket := None;
                    profit_target_order_ticket := None |}
                 Hst Hsym Hty eq_refl eq_refl Hm).
      split; [reflexivity | split; reflexivity].
    + unfold entry_fill_accepted, direction_matches, bracket_absent in Hacc.
      cbn [stop_loss_order_ticket profit_target_order_ticket] in Hacc.
      unfold OnOrderEvent. rewrite !run_bind_self.
      cbn [stop_loss_order_ticket profit_target_order_ticket].
      destruct (Status ev); cbn [OrderStatus_eqb andb orb] in Hacc |- *;
        try (split; [reflexivity | split; reflexivity]).
      * destruct st as [[i1]|], tg as [[i2]|]; cbn [is_None] in Hacc |- *;
          rewrite ?andb_false_r, ?andb_true_r in Hacc |- *;
          cbn [andb] in Hacc |- *.
        -- exec. destruct (OrderId ev =? i1); [|destruct (OrderId ev =? i2)];
             split; try reflexivity; split; reflexivity.
        -- exec. destruct (OrderId ev =? i1);
             split; try reflexivity; split; reflexivity.
        -- exec. destruct (OrderId ev =? i2);
             split; try reflexivity; split; reflexivity.
        -- destruct (String.eqb _ _ && OrderType_eqb _ _);
             cbn [andb] in Hacc |- *; rewrite ?Hacc;
             split; try reflexivity; split; reflexivity.
      * destruct st as [[i1]|], tg as [[i2]|]; exec;
          try destruct (OrderId ev =? i1); try destruct (OrderId ev =? i2);
          destruct (Invested h); split; try reflexivity; split; reflexivity.
      * exec. destruct (Type_ _); try destruct (Invested h);
          split; try reflexivity; split; reflexivity.
      * exec. destruct (Type_ _); try destruct (Invested h);
          split; try reflexivity; split; reflexivity.
      * exec. destruct (Type_ _); try destruct (Invested h);
          split; try reflexivity; split; reflexivity.
  - unfold OnData.
    destruct (IsWarmingUp h); [split; [reflexivity | split; reflexivity]|].
    destruct data as [bar|]; [|split; [reflexivity | split; reflexivity]].
    destruct (negb (rsi_IsReady h) || negb (atr_IsReady h) || negb (kr_IsReady h));
      [split; [reflexivity | split; reflexivity]|].
    destruct (negb (Invested h)).
    + destruct (Qlt_bool (rsi_Value h) rsi_oversold
                && Qlt_bool (Close bar) (kr_Value h));
        [|destruct (Qlt_bool rsi_overbought (rsi_Value h)
                    && Qlt_bool (kr_Value h) (Close bar))];
        try destruct (negb (CalculateOrderQuantity h portfolio_allocation =? 0));
        try destruct (negb (CalculateOrderQuantity h
                              (- portfolio_allocation)%Q =? 0));
        split; try reflexivity; split; reflexivity.
    + unfold CancelStopLossAndProfitTarget.
      destruct (IsLong h && Qlt_bool rsi_exit_level (rsi_Value h));
        [|destruct (IsShort h && Qlt_bool (rsi_Value h) rsi_exit_level)];
        destruct st as [t1|], tg as [t2|]; exec;
        try destruct (IsActive h t1); try destruct (IsActive h t2);
        split; try reflexivity; split; reflexivity.
Qed.

(** The price 50 left by a sizing failure against the reset price 0: the
    next entry fill is handled identically. *)
Lemma entry_price_is_never_read_witness :
  snd (run (OnOrderEvent host_long (filled 1 (100 # 1) 10))
           (with_entry_price (50 # 1) Initialize))
  = snd (run (OnOrderEvent host_long (filled 1 (100 # 1) 10)) Initialize).
Proof.
  apply (entry_price_is_never_read host_long (filled 1 (100 # 1) 10) None
           (with_entry_price (50 # 1) Initialize) Initialize).
  split; reflexivity.
Defined.

(** ** The kernel regression indicator: window and readiness *)

Lemma tl_skipn {A} (k : nat) (l : list A) : tl (skipn k l) = skipn (S k) l.
Proof.
  revert l. induction k as [|k IH]; intros [|a l]; try reflexivity.
  cbn [skipn]. apply IH.
Qed.

Lemma length_last_n {A} (n : nat) (l : list A) :
  List.length (KR.last_n n l) = Nat.min (List.length l) n.
Proof. unfold KR.last_n. rewrite length_skipn. lia. Qed.

(** Appending to the deque that holds the last [n] elements of [l] gives the
    last [n] elements of [l] extended. *)
Lemma deque_append_last_n {A} (n : nat) (l : list A) (x : A) :
  KR.deque_append (Z.of_nat n) (KR.last_n n l) x = KR.last_n n (l ++ [x]).
Proof.
  unfold KR.deque_append. rewrite length_last_n. unfold KR.last_n.
  rewrite length_app. cbn [List.length].
  destruct n as [|n].
  - rewrite Nat.min_0_r, !Nat.sub_0_r. cbn [Z.of_nat Z.ltb Z.compare].
    rewrite skipn_all, skipn_all2 by (rewrite length_app; cbn; lia).
    reflexivity.
  - destruct (Z.of_nat (Nat.min (List.length l) (S n)) <? Z.of_nat (S n)) eqn:E.
    + apply Z.ltb_lt in E.
      replace (List.length l - S n)%nat with 0%nat by lia.
      replace (List.length l + 1 - S n)%nat with 0%nat by lia.
      reflexivity.
    + apply Z.ltb_ge in E.
      replace (List.length l + 1 - S n)%nat
        with (S (List.length l - S n)) by lia.
      rewrite skipn_app.
      replace (S (List.length l - S n) - List.length l)%nat with 0%nat by lia.
      change (skipn 0 [x]) with [x]. rewrite <- tl_skipn.
      destruct (skipn (List.length l - S n) l) as [|a r] eqn:Es; [|reflexivity].
      exfalso. apply (f_equal (@List.length A)) in Es.
      rewrite length_skipn in Es. cbn [List.length] in Es. lia.
Qed.

Section KernelWindow.
Variable np_exp : Q -> Q.

Lemma update_fields (x : KR.IndicatorDataPoint) (st : KR.State) :
  let st' := snd (KR.update np_exp x st) in
  KR.period st' = KR.period st
  /\ KR.bandwidth st' = KR.bandwidth st
  /\ KR.warm_up_period st' = KR.warm_up_period st
  /\ KR._window st' =
     KR.deque_append (KR.period st) (KR._window st) (KR.point_value x)
  /\ KR._indices st' =
     KR.deque_append (KR.period st) (KR._indices st) (KR._current_index st)
  /\ KR._current_index st' = KR._current_index st + 1
  /\ KR.point_time (KR.current st') = KR.point_time x
  /\ fst (KR.update np_exp x st) = KR.is_ready st'
  /\ (KR.is_ready st' = false ->
      KR.value st' = KR.value st
      /\ KR.point_value (KR.current st') = KR.point_value (KR.current st)).
Proof.
  cbv zeta. unfold KR.update.
  destruct (KR.is_ready _) eqn:E; cbn [negb snd fst];
    unfold KR.is_ready in *;
    cbn [KR.period KR.bandwidth KR.warm_up_period KR._window KR._indices
         KR._current_index KR.current KR.point_time KR.value KR.point_value]
      in *;
    rewrite E; repeat split; auto; discriminate.
Qed.

Lemma feed_app (xs : list KR.IndicatorDataPoint) (x : KR.IndicatorDataPoint)
    (st : KR.State) :
  KR.feed np_exp (xs ++ [x]) st = snd (KR.update np_exp x (KR.feed np_exp xs st)).
Proof.
  revert st. induction xs as [|y xs IH]; intros st; [reflexivity|].
  cbn [app KR.feed]. apply IH.
Qed.

(** The state after feeding [xs] to an indicator with empty deques. *)
Lemma feed_structure (xs : list KR.IndicatorDataPoint) (st0 : KR.State) :
  0 <= KR.period st0 ->
  KR._window st0 = [] -> KR._indices st0 = [] -> KR._current_index st0 = 0 ->
  let st := KR.feed np_exp xs st0 in
  let n := Z.to_nat (KR.period st0) in
  KR.period st = KR.period st0
  /\ KR.bandwidth st = KR.bandwidth st0
  /\ KR.warm_up_period st = KR.warm_up_period st0
  /\ KR._window st = KR.last_n n (map KR.point_value xs)
  /\ KR._indices st = KR.last_n n (map Z.of_nat (seq 0 (List.length xs)))
  /\ KR._current_index st = Z.of_nat (List.length xs)
  /\ ((List.length xs < n)%nat ->
      KR.value st = KR.value st0
      /\ KR.point_value (KR.current st) = KR.point_value (KR.current st0)).
Proof.
  intros Hp Hw Hi Hc. cbv zeta.
  remember (Z.to_nat (KR.period st0)) as n eqn:En.
  assert (Hn : KR.period st0 = Z.of_nat n)
    by (subst n; symmetry; apply Z2Nat.id; exact Hp).
  clear En.
  induction xs as [|x xs IH] using rev_ind.
  - cbn [KR.feed map List.length seq]. unfold KR.last_n. cbn.
    rewrite Hw, Hi, Hc. repeat split; reflexivity.
  - destruct IH as (Ip & Ib & Iw & Iwin & Iidx & Icur & Ival).
    rewrite feed_app.
    destruct (update_fields x (KR.feed np_exp xs st0))
      as (Up & Ub & Uw & Uwin & Uidx & Ucur & _ & _ & Uval).
    assert (Hwin : KR._window (snd (KR.update np_exp x (KR.feed np_exp xs st0)))
                   = KR.last_n n (map KR.point_value (xs ++ [x]))).
    { rewrite Uwin, Ip, Iwin, Hn, deque_append_last_n, map_app. reflexivity. }
    assert (Hidx : KR._indices (snd (KR.update np_exp x (KR.feed np_exp xs st0)))
                   = KR.last_n n (map Z.of_nat
                                      (seq 0 (List.length (xs ++ [x]))))).
    { rewrite Uidx, Ip, Iidx, Icur, Hn, deque_append_last_n.
      rewrite length_app. cbn [List.length].
      replace (List.length xs + 1)%nat with (S (List.length xs)) by lia.
      rewrite seq_S, map_app. reflexivity. }
    assert (Hnr : (List.length (xs ++ [x]) < n)%nat ->
                  KR.is_ready (snd (KR.update np_exp x (KR.feed np_exp xs st0)))
                  = false).
    { intros Hlt. unfold KR.is_ready. rewrite Hwin, Up, Ip, Hn.
      rewrite length_last_n, length_map. apply Z.eqb_neq. lia. }
    rewrite Up, Ub, Uw, Ucur, Ip, Ib, Iw, Icur, Hwin, Hidx.
    rewrite length_app. cbn [List.length].
    repeat split; try reflexivity; try lia.
    + destruct Ival as [Iv _]; [lia|].
      rewrite <- Iv. apply Uval. apply Hnr. rewrite length_app. cbn. lia.
    + destruct Ival as [_ Iv]; [lia|].
      rewrite <- Iv. apply Uval. apply Hnr. rewrite length_app. cbn. lia.
Qed.

Lemma init_ok (c : KR.IndicatorDataPoint) (p : Z) (bw : Q) (st0 : KR.State) :
  KR.init c p bw = KR.Ok st0 ->
  1 <= p /\ (0 < bw)%Q
  /\ st0 = {| KR.period := p; KR.bandwidth := bw; KR.warm_up_period := p;
              KR.value := 0%Q; KR._window := []; KR._indices := [];
              KR._current_index := 0; KR.current := c |}.
Proof.
  unfold KR.init. destruct (p <? 1) eqn:Ep; [discriminate|].
  destruct (Qle_bool bw 0) eqn:Eb; [discriminate|].
  intros H. inversion H. apply Z.ltb_ge in Ep. repeat split; auto.
  apply Qnot_le_lt. intros Hle. apply Qle_bool_iff in Hle. congruence.
Qed.

End KernelWindow.

(** X14. The window is a sliding one: after any number of updates of a
    constructed indicator it holds the last [period] input values, oldest
    first (all of them while fewer have arrived), the index deque holds the
    matching update numbers, and the counter equals the number of updates; the
    window never grows beyond the period. *)
Theorem kr_window_holds_latest_inputs
    (np_exp : Q -> Q) (c : KR.IndicatorDataPoint) (p : Z) (bw : Q)
    (st0 : KR.State) (xs : list KR.IndicatorDataPoint) :
  KR.init c p bw = KR.Ok st0 ->
  let st := KR.feed np_exp xs st0 in
  KR._window st = KR.last_n (Z.to_nat p) (map KR.point_value xs)
  /\ KR._indices st =
     KR.last_n (Z.to_nat p) (map Z.of_nat (seq 0 (List.length xs)))
  /\ KR._current_index st = Z.of_nat (List.length xs)
  /\ Z.of_nat (List.length (KR._window st)) <= p
  /\ List.length (KR._indices st) = List.length (KR._window st).
Proof.
  intros Hinit. cbv zeta.
  destruct (init_ok c p bw st0 Hinit) as (Hp & _ & ->).
  destruct (feed_structure np_exp xs
              {| KR.period := p; KR.bandwidth := bw; KR.warm_up_period := p;
                 KR.value := 0%Q; KR._window := []; KR._indices := [];
                 KR._current_index := 0; KR.current := c |})
    as (_ & _ & _ & Hw & Hi & Hc & _); cbn; try reflexivity; try lia.
  cbn [KR.period] in Hw, Hi.
  rewrite Hw, Hi, Hc.
  rewrite !length_last_n, !length_map, length_seq.
  repeat split; lia.
Qed.

Lemma kr_window_holds_latest_inputs_witness :
  KR._window (KR.feed KR.sample_kernel KR.bars KR.fresh3)
  = [20 # 1; 30 # 1; 40 # 1]
  /\ KR._indices (KR.feed KR.sample_kernel KR.bars KR.fresh3) = [1; 2; 3]
  /\ KR._current_index (KR.feed KR.sample_kernel KR.bars KR.fresh3) = 4.
Proof.
  destruct (kr_window_holds_latest_inputs KR.sample_kernel KR.current0 3
              (2 # 1) KR.fresh3 KR.bars eq_refl) as (H1 & H2 & H3 & _).
  split; [exact H1 | split; [exact H2 | exact H3]].
Defined.

(** X15. A constructed indicator is ready exactly from its [period]-th
    update on, and the flag [update] returns is that readiness; until then
    [value] and the value of [current] stay as constructed, only the time of
    [current] follows the input. *)
Theorem kr_ready_after_period_updates
    (np_exp : Q -> Q) (c : KR.IndicatorDataPoint) (p : Z) (bw : Q)
    (st0 : KR.State) (xs : list KR.IndicatorDataPoint)
    (x : KR.IndicatorDataPoint) :
  KR.init c p bw = KR.Ok st0 ->
  let st := KR.feed np_exp xs st0 in
  KR.is_ready st = (p <=? Z.of_nat (List.length xs))
  /\ fst (KR.update np_exp x st) = (p <=? Z.of_nat (List.length xs) + 1)
  /\ KR.point_time (KR.current (snd (KR.update np_exp x st))) = KR.point_time x
  /\ (Z.of_nat (List.length xs) < p ->
      KR.value st = 0%Q
      /\ KR.point_value (KR.current st) = KR.point_value c).
Proof.
  intros Hinit. cbv zeta.
  destruct (init_ok c p bw st0 Hinit) as (Hp & _ & Hst0).
  assert (Hready : forall ys,
             KR.is_ready (KR.feed np_exp ys st0)
             = (p <=? Z.of_nat (List.length ys))).
  { intros ys. subst st0.
    destruct (feed_structure np_exp ys
                {| KR.period := p; KR.bandwidth := bw; KR.warm_up_period := p;
                   KR.value := 0%Q; KR._window := []; KR._indices := [];
                   KR._current_index := 0; KR.current := c |})
      as (Hper & _ & _ & Hw & _); cbn; try reflexivity; try lia.
    unfold KR.is_ready. rewrite Hper, Hw. cbn [KR.period].
    rewrite length_last_n, length_map.
    destruct (p <=? Z.of_nat (List.length ys)) eqn:E.
    - apply Z.leb_le in E. apply Z.eqb_eq. lia.
    - apply Z.leb_gt in E. apply Z.eqb_neq. lia. }
  split; [apply Hready|]. split; [|split].
  - destruct (update_fields np_exp x (KR.feed np_exp xs st0))
      as (_ & _ & _ & _ & _ & _ & _ & Hflag & _).
    rewrite Hflag, <- feed_app, Hready, length_app. cbn [List.length].
    f_equal. lia.
  - now destruct (update_fields np_exp x (KR.feed np_exp xs st0))
      as (_ & _ & _ & _ & _ & _ & Ht & _).
  - intros Hlt. subst st0.
    destruct (feed_structure np_exp xs
                {| KR.period := p; KR.bandwidth := bw; KR.warm_up_period := p;
                   KR.value := 0%Q; KR._window := []; KR._indices := [];
                   KR._current_index := 0; KR.current := c |})
      as (_ & _ & _ & _ & _ & _ & Hv); cbn; try reflexivity; try lia.
    apply Hv. cbn [KR.period]. lia.
Qed.

Lemma kr_ready_after_period_updates_witness :
  KR.is_ready (KR.feed KR.sample_kernel (firstn 2 KR.bars) KR.fresh3) = false
  /\ fst (KR.update KR.sample_kernel (KR.point 3 (30 # 1))
            (KR.feed KR.sample_kernel (firstn 2 KR.bars) KR.fresh3)) = true.
Proof.
  destruct (kr_ready_after_period_updates KR.sample_kernel KR.current0 3
              (2 # 1) KR.fresh3 (firstn 2 KR.bars) (KR.point 3 (30 # 1))
              eq_refl) as (H1 & H2 & _).
  split; [exact H1 | exact H2].
Defined.

(** X16. [reset] undoes any history: resetting a constructed indicator
    after any number of updates gives back exactly the state [__init__]
    built, so it again needs [period] updates to become ready. *)
Theorem kr_reset_restores_constructed_state
    (np_exp : Q -> Q) (c : KR.IndicatorDataPoint) (p : Z) (bw : Q)
    (st0 : KR.State) (xs : list KR.IndicatorDataPoint) :
  KR.init c p bw = KR.Ok st0 ->
  KR.reset c (KR.feed np_exp xs st0) = st0.
Proof.
  intros Hinit.
  destruct (init_ok c p bw st0 Hinit) as (Hp & _ & ->).
  destruct (feed_structure np_exp xs
              {| KR.period := p; KR.bandwidth := bw; KR.warm_up_period := p;
                 KR.value := 0%Q; KR._window := []; KR._indices := [];
                 KR._current_index := 0; KR.current := c |})
    as (Hper & Hb & Hw & _); cbn; try reflexivity; try lia.
  unfold KR.reset. rewrite Hper, Hb, Hw. reflexivity.
Qed.

Lemma kr_reset_restores_constructed_state_witness :
  KR.reset KR.current0 (KR.feed KR.sample_kernel KR.bars KR.fresh3) = KR.fresh3.
Proof.
  apply (kr_reset_restores_constructed_state KR.sample_kernel KR.current0 3
           (2 # 1) KR.fresh3 KR.bars eq_refl).
Defined.

(** ** The kernel regression indicator: weights and value *)

Lemma seq_from (a len : nat) : seq a len = map (Nat.add a) (seq 0 len).
Proof.
  induction a as [|a IH]; [now rewrite map_id|].
  rewrite <- seq_shift, IH, map_map. reflexivity.
Qed.

(** With a period of at least 1 the deque is never empty after an append,
    and its newest element is the one appended. *)
Lemma last_deque_append {A} (maxlen : Z) (d : list A) (x dflt : A) :
  1 <= maxlen -> last (KR.deque_append maxlen d x) dflt = x.
Proof.
  intros Hm. unfold KR.deque_append.
  destruct (Z.of_nat (List.length d) <? maxlen) eqn:E.
  - apply last_last.
  - apply Z.ltb_ge in E. destruct d as [|a d]; [cbn in E; lia|].
    cbn [app tl]. apply last_last.
Qed.

Lemma np_sum_nonneg (l : list Q) :
  (forall w, In w l -> (0 <= w)%Q) -> (0 <= KR.np_sum l)%Q.
Proof.
  induction l as [|a l IH]; intros H; cbn [KR.np_sum fold_right].
  - apply Qle_refl.
  - assert (0 <= a)%Q by (apply H; now left).
    assert (0 <= KR.np_sum l)%Q by (apply IH; intros w Hw; apply H; now right).
    unfold KR.np_sum in *. lra.
Qed.

(** A sum of non-negative terms is at least its last term. *)
Lemma np_sum_ge_last (l : list Q) (d : Q) :
  l <> [] -> (forall w, In w l -> (0 <= w)%Q) -> (last l d <= KR.np_sum l)%Q.
Proof.
  induction l as [|a l IH]; intros Hne H; [contradiction|].
  destruct l as [|b l].
  - cbn. lra.
  - assert (0 <= a)%Q by (apply H; now left).
    assert (last (b :: l) d <= KR.np_sum (b :: l))%Q
      by (apply IH; [discriminate | intros w Hw; apply H; now right]).
    change (last (a :: b :: l) d) with (last (b :: l) d).
    change (KR.np_sum (a :: b :: l)) with (a + KR.np_sum (b :: l))%Q.
    lra.
Qed.

Lemma last_map {A B} (f : A -> B) (l : list A) (d : A) :
  last (map f l) (f d) = f (last l d).
Proof.
  induction l as [|a l IH]; [reflexivity|].
  destruct l as [|b l]; [reflexivity|]. exact IH.
Qed.

Section KernelValue.
Variable np_exp : Q -> Q.
Hypothesis np_exp_0 : forall x, (x == 0)%Q -> (np_exp x == 1)%Q.
Hypothesis np_exp_nonneg : forall x, (x <= 0)%Q -> (0 <= np_exp x)%Q.

Lemma weights_nonneg (bw : Q) (indices : list Z) (cur : Z) (w : Q) :
  In w (KR.weights np_exp bw indices cur) -> (0 <= w)%Q.
Proof.
  unfold KR.weights. intros Hin. apply in_map_iff in Hin.
  destruct Hin as (i & <- & _). apply np_exp_nonneg.
  set (u := (inject_Z (i - cur) / bw)%Q).
  change (u ^ 2)%Q with (u * u)%Q.
  assert (0 <= u * u)%Q by nra. lra.
Qed.

(** The weight of the newest index is 1, so the weights sum to at least 1. *)
Lemma sum_weights_ge_1 (bw : Q) (indices : list Z) :
  indices <> [] ->
  (1 <= KR.np_sum (KR.weights np_exp bw indices (last indices 0%Z)))%Q.
Proof.
  intros Hne.
  set (cur := last indices 0).
  assert (Hlast : (last (KR.weights np_exp bw indices cur) 0%Q == 1)%Q).
  { unfold KR.weights.
    set (f := fun i : Z =>
                np_exp (- (1 # 2) * (inject_Z (i - cur) / bw) ^ 2)%Q).
    assert (Hd : last (map f indices) 0%Q = last (map f indices) (f 0)).
    { clear -Hne. induction indices as [|a l IH]; [contradiction|].
      destruct l as [|b l]; [reflexivity|].
      change (last (map f (a :: b :: l)) 0%Q) with (last (map f (b :: l)) 0%Q).
      change (last (map f (a :: b :: l)) (f 0))
        with (last (map f (b :: l)) (f 0)).
      apply IH. discriminate. }
    rewrite Hd, last_map. unfold f. fold cur. apply np_exp_0.
    rewrite Z.sub_diag. change (inject_Z 0) with 0%Q.
    unfold Qdiv. rewrite Qmult_0_l. reflexivity. }
  rewrite <- Hlast. apply np_sum_ge_last.
  - unfold KR.weights. destruct indices; [contradiction | discriminate].
  - intros w. apply weights_nonneg.
Qed.

(** The value a ready [update] computes. *)
Lemma update_ready_value (x : KR.IndicatorDataPoint) (st : KR.State) :
  1 <= KR.period st ->
  (0 < KR.bandwidth st)%Q ->
  fst (KR.update np_exp x st) = true ->
  let st' := snd (KR.update np_exp x st) in
  let w := KR.weights np_exp (KR.bandwidth st') (KR._indices st')
             (KR._current_index st) in
  (1 <= KR.np_sum w)%Q
  /\ KR.value st' = (KR.np_sum (KR.np_mul w (KR._window st')) / KR.np_sum w)%Q
  /\ KR.current st' =
     {| KR.point_time := KR.point_time x; KR.point_value := KR.value st' |}.
Proof.
  intros Hp Hbw Hflag. cbv zeta. revert Hflag. unfold KR.update.
  destruct (negb (KR.is_ready _)); [discriminate|]. intros _.
  assert (Hnz : Qeq_bool (KR.bandwidth st) 0 = false).
  { destruct (Qeq_bool (KR.bandwidth st) 0) eqn:E; [|reflexivity].
    apply Qeq_bool_iff in E. rewrite E in Hbw.
    exfalso. apply (Qlt_irrefl 0). exact Hbw. }
  cbn [snd KR.value KR.current KR.bandwidth KR._indices KR._window].
  rewrite last_deque_append by exact Hp.
  assert (H1 : (1 <= KR.np_sum
                      (KR.weights np_exp (KR.bandwidth st)
                         (KR.deque_append (KR.period st) (KR._indices st)
                            (KR._current_index st))
                         (KR._current_index st)))%Q).
  { pose proof (sum_weights_ge_1 (KR.bandwidth st)
                  (KR.deque_append (KR.period st) (KR._indices st)
                     (KR._current_index st))) as H.
    rewrite last_deque_append in H by exact Hp. apply H.
    intros He. apply (f_equal (fun l => List.length l)) in He.
    unfold KR.deque_append in He.
    destruct (Z.of_nat (List.length (KR._indices st)) <? KR.period st) eqn:E.
    - rewrite length_app in He. cbn in He. lia.
    - apply Z.ltb_ge in E. destruct (KR._indices st) as [|a l];
        [cbn in E; lia|].
      cbn [app tl] in He. rewrite length_app in He. cbn in He. lia. }
  assert (H2 : Qlt_bool KR.threshold
                 (KR.np_sum
                    (KR.weights np_exp (KR.bandwidth st)
                       (KR.deque_append (KR.period st) (KR._indices st)
                          (KR._current_index st))
                       (KR._current_index st))) = true).
  { apply Qlt_bool_iff. eapply Qlt_le_trans; [|exact H1]. reflexivity. }
  rewrite Hnz, H2. repeat split. exact H1.
Qed.

End KernelValue.

Lemma sample_kernel_0 (x : Q) : (x == 0)%Q -> (KR.sample_kernel x == 1)%Q.
Proof. intros H. unfold KR.sample_kernel. rewrite H. reflexivity. Qed.

Lemma sample_kernel_nonneg (x : Q) :
  (x <= 0)%Q -> (0 <= KR.sample_kernel x)%Q.
Proof.
  intros H. unfold KR.sample_kernel, Qdiv.
  apply Qmult_le_0_compat; [discriminate|].
  apply Qinv_le_0_compat. lra.
Qed.



(** X18. Once the window is full the weights depend on the position in the
    window only: at every update they are the weights of the offsets
    [-(period-1), ..., 0], whatever the number of updates so far. *)
Theorem kr_weights_depend_on_position_only
    (np_exp : Q -> Q) (c : KR.IndicatorDataPoint) (p : Z) (bw : Q)
    (st0 : KR.State) (xs : list KR.IndicatorDataPoint) :
  KR.init c p bw = KR.Ok st0 ->
  p <= Z.of_nat (List.length xs) ->
  let st := KR.feed np_exp xs st0 in
  KR.weights np_exp (KR.bandwidth st) (KR._indices st) (last (KR._indices st) 0)
  = KR.weights np_exp bw (map Z.of_nat (seq 0 (Z.to_nat p))) (p - 1).
Proof.
  intros Hinit Hlen. cbv zeta.
  destruct (init_ok c p bw st0 Hinit) as (Hp & _ & ->).
  destruct (feed_structure np_exp xs
              {| KR.period := p; KR.bandwidth := bw; KR.warm_up_period := p;
                 KR.value := 0%Q; KR._window := []; KR._indices := [];
                 KR._current_index := 0; KR.current := c |})
    as (_ & Hb & _ & _ & Hi & _); cbn; try reflexivity; try lia.
  cbn [KR.period KR.bandwidth] in Hi, Hb. rewrite Hi, Hb.
  set (n := List.length xs) in *. set (P := Z.to_nat p).
  assert (HP : (1 <= P <= n)%nat) by (subst P; lia).
  unfold KR.last_n. rewrite length_map, length_seq, skipn_map, skipn_seq.
  cbn [Nat.add]. replace (n - (n - P))%nat with P by lia.
  assert (Hlast : last (map Z.of_nat (seq (n - P) P)) 0 = Z.of_nat n - 1).
  { destruct P as [|P']; [lia|].
    rewrite seq_S, map_app. cbn [map]. rewrite last_last. lia. }
  rewrite Hlast. unfold KR.weights.
  rewrite (seq_from (n - P) P), !map_map.
  apply map_ext_in. intros k Hk. apply in_seq in Hk.
  replace (Z.of_nat (n - P + k) - (Z.of_nat n - 1)) with (Z.of_nat k - (p - 1))
    by (subst P; lia).
  reflexivity.
Qed.

Lemma kr_weights_depend_on_position_only_witness :
  KR.weights KR.sample_kernel (2 # 1) [1; 2; 3] 3
  = KR.weights KR.sample_kernel (2 # 1) [0; 1; 2] 2.
Proof.
  apply (kr_weights_depend_on_position_only KR.sample_kernel KR.current0 3
           (2 # 1) KR.fresh3 KR.bars eq_refl).
  cbn. lia.
Defined.

Lemma last_n_1_snoc {A} (l : list A) (a : A) : KR.last_n 1 (l ++ [a]) = [a].
Proof.
  unfold KR.last_n. rewrite length_app. cbn [List.length].
  replace (List.length l + 1 - 1)%nat with (List.length l) by lia.
  rewrite skipn_app, skipn_all, Nat.sub_diag. reflexivity.
Qed.

(** X19. With the smallest period the constructor accepts, 1, the
    indicator is ready after every update and its value equals the input
    just given. *)
Theorem kr_period_one_echoes_input
    (np_exp : Q -> Q) (c : KR.IndicatorDataPoint) (bw : Q)
    (st0 : KR.State) (xs : list KR.IndicatorDataPoint)
    (x : KR.IndicatorDataPoint) :
  (forall y, (y == 0)%Q -> (np_exp y == 1)%Q) ->
  (forall y, (y <= 0)%Q -> (0 <= np_exp y)%Q) ->
  KR.init c 1 bw = KR.Ok st0 ->
  let r := KR.update np_exp x (KR.feed np_exp xs st0) in
  fst r = true
  /\ (KR.value (snd r) == KR.point_value x)%Q
  /\ (KR.point_value (KR.current (snd r)) == KR.point_value x)%Q.
Proof.
  intros H0 Hnn Hinit. cbv zeta.
  destruct (init_ok c 1 bw st0 Hinit) as (_ & Hbpos & Hst0).
  set (fresh := {| KR.period := 1; KR.bandwidth := bw; KR.warm_up_period := 1;
                   KR.value := 0%Q; KR._window := []; KR._indices := [];
                   KR._current_index := 0; KR.current := c |}) in *.
  subst st0.
  destruct (feed_structure np_exp (xs ++ [x]) fresh)
    as (Hper' & _ & _ & Hw' & Hi' & _); cbn; try reflexivity; try lia.
  destruct (feed_structure np_exp xs fresh)
    as (Hper & Hbf & _ & _ & _ & Hc & _); cbn; try reflexivity; try lia.
  rewrite feed_app in Hper', Hw', Hi'.
  cbn [KR.period fresh] in Hper', Hw', Hi', Hper.
  change (Z.to_nat 1) with 1%nat in Hw', Hi'.
  rewrite map_app in Hw'. cbn [map] in Hw'. rewrite last_n_1_snoc in Hw'.
  rewrite length_app in Hi'. cbn [List.length] in Hi'.
  replace (List.length xs + 1)%nat with (S (List.length xs)) in Hi' by lia.
  rewrite seq_S, map_app in Hi'. cbn [map Nat.add] in Hi'.
  rewrite last_n_1_snoc in Hi'.
  assert (Hflag : fst (KR.update np_exp x (KR.feed np_exp xs fresh)) = true).
  { destruct (update_fields np_exp x (KR.feed np_exp xs fresh))
      as (_ & _ & _ & _ & _ & _ & _ & Hf & _).
    rewrite Hf. unfold KR.is_ready. rewrite Hw', Hper'. reflexivity. }
  split; [exact Hflag|].
  assert (Hp : 1 <= KR.period (KR.feed np_exp xs fresh))
    by (rewrite Hper; cbn; lia).
  assert (Hbw : (0 < KR.bandwidth (KR.feed np_exp xs fresh))%Q)
    by (rewrite Hbf; exact Hbpos).
  destruct (update_ready_value np_exp H0 Hnn x (KR.feed np_exp xs fresh)
              Hp Hbw Hflag)
    as (Hsum & Hval & Hcur).
  rewrite Hcur. cbn [KR.point_value].
  assert (Hgoal : (KR.value (snd (KR.update np_exp x (KR.feed np_exp xs fresh)))
                   == KR.point_value x)%Q); [|split; exact Hgoal].
  revert Hsum. rewrite Hval, Hw', Hi', Hc. clear Hval Hcur.
  unfold KR.weights, KR.np_mul.
  cbn [map combine fst snd KR.np_sum fold_right].
  set (w0 := np_exp _). intros Hsum. field. lra.
Qed.

(** A period-1 indicator fed 10, 20 and then 30. *)
Lemma kr_period_one_echoes_input_witness :
  (KR.value
     (snd (KR.update KR.sample_kernel (KR.point 3 (30 # 1))
             (KR.feed KR.sample_kernel (firstn 2 KR.bars)
                {| KR.period := 1; KR.bandwidth := 2 # 1;
                   KR.warm_up_period := 1; KR.value := 0;
                   KR._window := []; KR._indices := [];
                   KR._current_index := 0%Z; KR.current := KR.current0 |})))
   == 30 # 1)%Q.
Proof.
  apply (kr_period_one_echoes_input KR.sample_kernel KR.current0 (2 # 1) _
           (firstn 2 KR.bars) (KR.point 3 (30 # 1))
           sample_kernel_0 sample_kernel_nonneg eq_refl).
Defined.

(** X20. The constructor validates its arguments in order: a period below 1
    is refused first, then a bandwidth that is not positive; otherwise the
    indicator starts with empty deques, counter 0, value 0, a warm-up period
    equal to the period, and is not ready. *)
Theorem kr_init_validates (c : KR.IndicatorDataPoint) (p : Z) (bw : Q) :
  (p < 1 ->
   KR.init c p bw
   = KR.ValueError "KernelRegression: Period must be greater than 0.")
  /\ (1 <= p -> (bw <= 0)%Q ->
      KR.init c p bw
      = KR.ValueError "KernelRegression: Bandwidth must be positive.")
  /\ (1 <= p -> (0 < bw)%Q ->
      exists st0,
        KR.init c p bw = KR.Ok st0
        /\ KR.is_ready st0 = false
        /\ KR._window st0 = [] /\ KR._indices st0 = []
        /\ KR._current_index st0 = 0 /\ KR.value st0 = 0%Q
        /\ KR.period st0 = p /\ KR.warm_up_period st0 = p
        /\ KR.bandwidth st0 = bw).
Proof.
  unfold KR.init. split; [|split].
  - intros Hp. apply Z.ltb_lt in Hp. now rewrite Hp.
  - intros Hp Hb. apply Z.ltb_ge in Hp.
    now rewrite Hp, (Qle_bool_true_of_nonpos _ Hb).
  - intros Hp Hb. pose proof Hp as Hp'. apply Z.ltb_ge in Hp'.
    rewrite Hp', (Qle_bool_false_of_pos _ Hb).
    eexists. split; [reflexivity|].
    unfold KR.is_ready.
    cbn [KR._window KR.period KR._indices KR._current_index KR.value
         KR.warm_up_period KR.bandwidth List.length Z.of_nat].
    repeat split. apply Z.eqb_neq. lia.
Qed.

Lemma kr_init_validates_witness :
  KR.init KR.current0 0 (2 # 1)
  = KR.ValueError "KernelRegression: Period must be greater than 0."
  /\ KR.init KR.current0 3 0%Q
     = KR.ValueError "KernelRegression: Bandwidth must be positive."
  /\ KR.init KR.current0 3 (2 # 1) = KR.Ok KR.fresh3.
Proof.
  destruct (kr_init_validates KR.current0 0 (2 # 1)) as (H1 & _).
  destruct (kr_init_validates KR.current0 3 0%Q) as (_ & H2 & _).
  split; [apply H1; lia|]. split; [apply H2; [lia | discriminate]|].
  reflexivity.
Defined.
